(** * tounn_fixed_beam: neural-network topology optimisation of a fixed beam

    A shallow embedding of [tounn_example/tounn_fixed_beam.py].  The script is
    a straight-line driver around two numerical libraries (a finite-element
    solver and an automatic-differentiation tensor library) and three modules
    of the repository ([nn.top_optimizer_nn], [nn.top_opt_loss],
    [utils.utils]).  The driver is embedded statement by statement as a
    program in a state-and-exception monad; the collaborators are the fields
    of the class [Externals].  Python floats are binary64 numbers and are
    embedded as primitive floats, so the constants and the penalty schedule
    evaluate to the very values the interpreter computes. *)

From Stdlib Require Import ZArith List Bool String Lia.
From Stdlib Require Import Floats.PrimFloat Numbers.Cyclic.Int63.Uint63.
From Stdlib Require Import Reals Lra.
From Stdlib Require Import Floats.SpecFloat Floats.FloatOps Floats.FloatAxioms.
Import ListNotations.

#[local] Set Warnings "-inexact-float".
#[local] Open Scope Z_scope.

(** ** Python primitives used by the script *)

Module Py.

(** The exceptions the driver itself can raise. *)
Inductive Exn : Type :=
| NameError (name : string)
| ZeroDivisionError.

Inductive Result (A : Type) : Type :=
| Ok (a : A)
| Raise (e : Exn).
Arguments Ok {A} a.
Arguments Raise {A} e.

(** [min(a, b)]: the first argument is kept unless the second is
    strictly smaller. *)
Definition min (a b : float) : float :=
  if PrimFloat.ltb b a then b else a.

(** [range(lo, hi)] as the list of the values it yields. *)
Definition range (lo hi : Z) : list Z :=
  map (fun i => lo + Z.of_nat i) (seq 0 (Z.to_nat (hi - lo))).

(** [float(n)] for a non-negative integer below 2^63. *)
Definition float_of_Z (n : Z) : float :=
  PrimFloat.of_uint63 (Uint63.of_Z n).

(** [a / b] on integers: true division, an exception on a zero divisor. *)
Definition truediv (a b : Z) : Result float :=
  if b =? 0 then Raise ZeroDivisionError
  else Ok (PrimFloat.div (float_of_Z a) (float_of_Z b)).

End Py.
Import Py.

(** ** Number formats *)

(** The binary32 number nearest to a binary64 number (ties to even), as a
    binary64 value: what [numpy.float32(x)] holds. *)
Definition float32_of (x : float) : float :=
  match Prim2SF x with
  | S754_finite s m e =>
      SF2Prim (binary_normalize 24 128 (cond_Zopp s (Z.pos m)) e s)
  | _ => x
  end.



(** ** Parameters of a run (lines 41-61 of the script) *)

Record Config : Type := {
  nelx : Z;
  nely : Z;
  volume_ratio : float;
  penal : float;
  learning_rate : float;
  numbers_of_layers : Z;
  nrm_threshold : float;
  min_epochs : Z;
  max_epochs : Z;
  dim : Z;
  alpha_increment : float
}.

(** The values written in the script. *)
Definition script_config : Config := {|
  nelx := 180;
  nely := 60;
  volume_ratio := 0.3%float;
  penal := 3.0%float;
  learning_rate := 0.01%float;
  numbers_of_layers := 5;
  nrm_threshold := 0.1%float;
  min_epochs := 20;
  max_epochs := 500;
  dim := 2;
  alpha_increment := 0.05%float
|}.

Definition with_max_epochs (m : Z) (c : Config) : Config := {|
  nelx := nelx c; nely := nely c; volume_ratio := volume_ratio c;
  penal := penal c; learning_rate := learning_rate c;
  numbers_of_layers := numbers_of_layers c;
  nrm_threshold := nrm_threshold c; min_epochs := min_epochs c;
  max_epochs := m; dim := dim c; alpha_increment := alpha_increment c
|}.

Definition with_min_epochs (m : Z) (c : Config) : Config := {|
  nelx := nelx c; nely := nely c; volume_ratio := volume_ratio c;
  penal := penal c; learning_rate := learning_rate c;
  numbers_of_layers := numbers_of_layers c;
  nrm_threshold := nrm_threshold c; min_epochs := m;
  max_epochs := max_epochs c; dim := dim c;
  alpha_increment := alpha_increment c
|}.

Definition NAME : string := "tounn_fixed_beam".

(** [log_interval = 1] *)
Definition log_interval : Z := 1.

(** [alpha_max = 100 * volume_ratio] *)
Definition alpha_max (c : Config) : float :=
  PrimFloat.mul 100%float (volume_ratio c).

(** The right-hand side of [alpha = min(alpha_max, alpha + alpha_increment)]. *)
Definition anneal (c : Config) (alpha : float) : float :=
  Py.min (alpha_max c) (PrimFloat.add alpha (alpha_increment c)).

(** ** Values the script records *)

(** A row [[epoch, objective, average density]] of [training_data]. *)
Record Row : Type := {
  row_epoch : Z;
  row_objective : float;
  row_density_avg : float
}.

(** What is printed: the arguments handed to the progress format string, and
    the closing line with the elapsed time. *)
Inductive ConsoleLine : Type :=
| Progress (epoch : Z) (objective_sum density_avg loss_item
            rel_grey_elements : float)
| TimeCost (elapsed : string).

Inductive MetaValue : Type :=
| MInt (n : Z)
| MFloat (x : float)
| MStr (s : string).

Inductive OutFile : Type :=
| CsvFile (directory : string) (rows : list Row)
| MetaFile (name directory : string) (data : list (string * MetaValue)).

(** Calls to the collaborators, in the order they are made. *)
Inductive Event : Type :=
| EvZeroGrad
| EvForward
| EvAssignDensity (values : list float)
| EvSolve (density : list float)
| EvProject
| EvLoss (obj_0 alpha : float)
| EvBackward
| EvAnneal (alpha : float)
| EvClipGrad (threshold : float)
| EvOptimizerStep
| EvXdmfWrite (epoch : Z)
| EvAppend (row : Row)
| EvPrint (line : ConsoleLine)
| EvWriteCsv
| EvWriteMeta.

(** An event without its arguments. *)
Inductive Kind : Type :=
| KZeroGrad | KForward | KAssignDensity | KSolve | KProject | KLoss
| KBackward | KAnneal | KClipGrad | KOptimizerStep | KXdmfWrite | KAppend
| KPrint | KWriteCsv | KWriteMeta.

Definition kind (e : Event) : Kind :=
  match e with
  | EvZeroGrad => KZeroGrad
  | EvForward => KForward
  | EvAssignDensity _ => KAssignDensity
  | EvSolve _ => KSolve
  | EvProject => KProject
  | EvLoss _ _ => KLoss
  | EvBackward => KBackward
  | EvAnneal _ => KAnneal
  | EvClipGrad _ => KClipGrad
  | EvOptimizerStep => KOptimizerStep
  | EvXdmfWrite _ => KXdmfWrite
  | EvAppend _ => KAppend
  | EvPrint _ => KPrint
  | EvWriteCsv => KWriteCsv
  | EvWriteMeta => KWriteMeta
  end.

Definition kind_eqb (a b : Kind) : bool :=
  match a, b with
  | KZeroGrad, KZeroGrad | KForward, KForward
  | KAssignDensity, KAssignDensity | KSolve, KSolve | KProject, KProject
  | KLoss, KLoss | KBackward, KBackward | KAnneal, KAnneal
  | KClipGrad, KClipGrad | KOptimizerStep, KOptimizerStep
  | KXdmfWrite, KXdmfWrite | KAppend, KAppend | KPrint, KPrint
  | KWriteCsv, KWriteCsv | KWriteMeta, KWriteMeta => true
  | _, _ => false
  end.

(** Number of events of kind [k] in a trace. *)
Definition count_kind (k : Kind) (tr : list Event) : nat :=
  List.length (filter (fun e => kind_eqb k (kind e)) tr).

(** Position of the first event of kind [k]. *)
Fixpoint first_index (k : Kind) (tr : list Event) : option nat :=
  match tr with
  | [] => None
  | e :: tr' =>
      if kind_eqb k (kind e) then Some O
      else option_map S (first_index k tr')
  end.

(** [a] and [b] both occur in [tr], and the first [a] is before the first
    [b]. *)
Definition occurs_before (a b : Kind) (tr : list Event) : bool :=
  match first_index a tr, first_index b tr with
  | Some i, Some j => Nat.ltb i j
  | _, _ => false
  end.

(** ** The collaborators

    Everything the script calls and this repository's [src/] does not define:
    FEniCS, NumPy, PyTorch, the clock, and the repository's own modules [nn]
    and [utils].  Tensors and arrays are lists of floats. *)

Definition Coord : Type := list float.

Class Externals : Type := {
  (** state owned by the libraries *)
  Mesh : Type;
  Disp : Type;        (* the displacement function [u_sol] *)
  Params : Type;      (* [top_optimizer.parameters()] *)
  Grads : Type;       (* their [.grad] fields *)
  OptState : Type;    (* Adam's moment estimates *)
  (** FEniCS *)
  RectangleMesh : Z -> Z -> Mesh;
  num_cells : Mesh -> nat;
  cell_volumes : Mesh -> list float;
  Function_zero : Mesh -> Disp;
  LinearVariationalSolver_solve : Mesh -> float -> list float -> Disp;
  project_psi : Mesh -> Disp -> list float;
  (** utils.utils *)
  create_mid_points : Mesh -> Z -> list Coord;
  create_time_stamp : string;
  weight_init : Params -> Params;
  (** nn.top_optimizer_nn and nn.top_opt_loss *)
  TopOptimizerNN_init : Z -> Z -> Z -> bool -> Params;
  TopOptimizerNN_forward : Params -> list Coord -> list float;
  TopOptLoss_forward :
    list float -> list float -> float -> float -> float -> float ->
    list float -> float;
  TopOptLoss_backward :
    Params -> list Coord -> list float -> float -> float -> float -> float ->
    list float -> Grads;
  (** PyTorch *)
  to_float32 : float -> float;
  torch_sum : list float -> float;
  torch_mul : float -> float -> float;
  Adam_init : Params -> float -> OptState;
  Adam_step : float -> Params -> OptState -> Grads -> Params * OptState;
  clip_grad_norm : Grads -> float -> Grads;
  grad_accumulate : Grads -> Grads -> Grads;   (* [.grad += g] *)
  (** NumPy and the interpreter *)
  numpy_nep50 : bool;   (* NumPy >= 2 promotion: Python floats are weak *)
  np_sum : list float -> float;
  np_average : list float -> float;
  np_power : list float -> float -> list float;
  np_multiply : list float -> list float -> list float;
  float_pow : float -> float -> float;
  time_start : float;
  time_stop : float;
  strftime_HMS : float -> string
}.

Section Script.

Context {E : Externals}.

(** ** Program state *)

Record State : Type := {
  st_params : Params;
  st_opt : OptState;
  st_grads : option Grads;
  st_density : list float;               (* [density.vector()] *)
  st_u_sol : Disp;
  st_alpha : float;
  st_epoch : option Z;                   (* the variable [epoch] *)
  st_training_data : list Row;
  st_xdmf : list (Z * list float);       (* frames of the density file *)
  st_console : list ConsoleLine;
  st_files : list OutFile;
  st_trace : list Event
}.

Definition log (ev : Event) (s : State) : State := {|
  st_params := st_params s; st_opt := st_opt s; st_grads := st_grads s;
  st_density := st_density s; st_u_sol := st_u_sol s;
  st_alpha := st_alpha s; st_epoch := st_epoch s;
  st_training_data := st_training_data s; st_xdmf := st_xdmf s;
  st_console := st_console s; st_files := st_files s;
  st_trace := st_trace s ++ [ev]
|}.

Definition set_grads (g : option Grads) (s : State) : State := {|
  st_params := st_params s; st_opt := st_opt s; st_grads := g;
  st_density := st_density s; st_u_sol := st_u_sol s;
  st_alpha := st_alpha s; st_epoch := st_epoch s;
  st_training_data := st_training_data s; st_xdmf := st_xdmf s;
  st_console := st_console s; st_files := st_files s;
  st_trace := st_trace s
|}.

Definition set_params (po : Params * OptState) (s : State) : State := {|
  st_params := fst po; st_opt := snd po; st_grads := st_grads s;
  st_density := st_density s; st_u_sol := st_u_sol s;
  st_alpha := st_alpha s; st_epoch := st_epoch s;
  st_training_data := st_training_data s; st_xdmf := st_xdmf s;
  st_console := st_console s; st_files := st_files s;
  st_trace := st_trace s
|}.

Definition set_density (d : list float) (s : State) : State := {|
  st_params := st_params s; st_opt := st_opt s; st_grads := st_grads s;
  st_density := d; st_u_sol := st_u_sol s;
  st_alpha := st_alpha s; st_epoch := st_epoch s;
  st_training_data := st_training_data s; st_xdmf := st_xdmf s;
  st_console := st_console s; st_files := st_files s;
  st_trace := st_trace s
|}.

Definition set_u_sol (u : Disp) (s : State) : State := {|
  st_params := st_params s; st_opt := st_opt s; st_grads := st_grads s;
  st_density := st_density s; st_u_sol := u;
  st_alpha := st_alpha s; st_epoch := st_epoch s;
  st_training_data := st_training_data s; st_xdmf := st_xdmf s;
  st_console := st_console s; st_files := st_files s;
  st_trace := st_trace s
|}.

Definition set_alpha (a : float) (s : State) : State := {|
  st_params := st_params s; st_opt := st_opt s; st_grads := st_grads s;
  st_density := st_density s; st_u_sol := st_u_sol s;
  st_alpha := a; st_epoch := st_epoch s;
  st_training_data := st_training_data s; st_xdmf := st_xdmf s;
  st_console := st_console s; st_files := st_files s;
  st_trace := st_trace s
|}.

Definition set_epoch (e : Z) (s : State) : State := {|
  st_params := st_params s; st_opt := st_opt s; st_grads := st_grads s;
  st_density := st_density s; st_u_sol := st_u_sol s;
  st_alpha := st_alpha s; st_epoch := Some e;
  st_training_data := st_training_data s; st_xdmf := st_xdmf s;
  st_console := st_console s; st_files := st_files s;
  st_trace := st_trace s
|}.

Definition push_row (r : Row) (s : State) : State := {|
  st_params := st_params s; st_opt := st_opt s; st_grads := st_grads s;
  st_density := st_density s; st_u_sol := st_u_sol s;
  st_alpha := st_alpha s; st_epoch := st_epoch s;
  st_training_data := st_training_data s ++ [r]; st_xdmf := st_xdmf s;
  st_console := st_console s; st_files := st_files s;
  st_trace := st_trace s
|}.

Definition push_frame (f : Z * list float) (s : State) : State := {|
  st_params := st_params s; st_opt := st_opt s; st_grads := st_grads s;
  st_density := st_density s; st_u_sol := st_u_sol s;
  st_alpha := st_alpha s; st_epoch := st_epoch s;
  st_training_data := st_training_data s; st_xdmf := st_xdmf s ++ [f];
  st_console := st_console s; st_files := st_files s;
  st_trace := st_trace s
|}.

Definition push_line (l : ConsoleLine) (s : State) : State := {|
  st_params := st_params s; st_opt := st_opt s; st_grads := st_grads s;
  st_density := st_density s; st_u_sol := st_u_sol s;
  st_alpha := st_alpha s; st_epoch := st_epoch s;
  st_training_data := st_training_data s; st_xdmf := st_xdmf s;
  st_console := st_console s ++ [l]; st_files := st_files s;
  st_trace := st_trace s
|}.

Definition push_file (f : OutFile) (s : State) : State := {|
  st_params := st_params s; st_opt := st_opt s; st_grads := st_grads s;
  st_density := st_density s; st_u_sol := st_u_sol s;
  st_alpha := st_alpha s; st_epoch := st_epoch s;
  st_training_data := st_training_data s; st_xdmf := st_xdmf s;
  st_console := st_console s; st_files := st_files s ++ [f];
  st_trace := st_trace s
|}.

(** ** The monad: state that survives an exception *)

Definition M (A : Type) : Type := State -> Result A * State.

Definition ret {A} (a : A) : M A := fun s => (Ok a, s).

Definition bind {A B} (m : M A) (f : A -> M B) : M B :=
  fun s =>
    match m s with
    | (Ok a, s') => f a s'
    | (Raise e, s') => (Raise e, s')
    end.

Definition lift {A} (r : Result A) : M A := fun s => (r, s).

Definition modify (f : State -> State) : M unit := fun s => (Ok tt, f s).

Definition gets {A} (f : State -> A) : M A := fun s => (Ok (f s), s).

End Script.

Declare Scope py_scope.
Delimit Scope py_scope with py.
Notation "x <- m ;; k" := (bind m (fun x => k))
  (at level 61, m at next level, right associativity) : py_scope.
Notation "m ;; k" := (bind m (fun _ => k))
  (at level 61, right associativity) : py_scope.

Section Program.

Context {E : Externals}.
Local Open Scope py_scope.

(** ** Derived module-level values *)

(** [mesh = RectangleMesh(Point(0, 0), Point(nelx, nely), nelx, nely,
    "right/left")] *)
Definition mesh (c : Config) : Mesh := RectangleMesh (nelx c) (nely c).

(** ["output/{name}/{ts}/"] *)
Definition data_directory : string :=
  ("output/" ++ NAME ++ "/" ++ create_time_stamp ++ "/")%string.

(** [torch.tensor(x).float()] on a flat array. *)
Definition tensor_float (x : list float) : list float := map to_float32 x.

(** The state when the script reaches line 111: network and optimizer built,
    [alpha = alpha_increment], nothing recorded yet, [epoch] unbound. *)
Definition initial_state (c : Config) : State :=
  let p := weight_init
             (TopOptimizerNN_init (dim c) 20 (numbers_of_layers c) true) in
  {| st_params := p;
     st_opt := Adam_init p (learning_rate c);
     st_grads := None;
     st_density := repeat 0%float (num_cells (mesh c));
     st_u_sol := Function_zero (mesh c);
     st_alpha := alpha_increment c;
     st_epoch := None;
     st_training_data := [];
     st_xdmf := [];
     st_console := [];
     st_files := [];
     st_trace := [] |}.

(** ** The statements of the script *)

(** [optimizer.zero_grad()]: the stored gradients are cleared (set to
    [None]). *)
Definition zero_grad : M unit :=
  modify (fun s => log EvZeroGrad (set_grads None s)).

(** [top_optimizer(mid_points)] *)
Definition top_optimizer (mid_points : list Coord) : M (list float) :=
  fun s => (Ok (TopOptimizerNN_forward (st_params s) mid_points),
            log EvForward s).

(** [density.vector()[:] = values] *)
Definition assign_density (values : list float) : M unit :=
  modify (fun s => log (EvAssignDensity values) (set_density values s)).

(** [solver.solve()]: reads the density function, overwrites [u_sol]. *)
Definition solver_solve (c : Config) : M unit :=
  modify (fun s =>
    log (EvSolve (st_density s))
        (set_u_sol
           (LinearVariationalSolver_solve (mesh c) (penal c) (st_density s))
           s)).

(** [project(psi(u_sol), D).vector()[:]] *)
Definition project_psi_vector (c : Config) : M (list float) :=
  fun s => (Ok (project_psi (mesh c) (st_u_sol s)), log EvProject s).

(** [loss_function(density_new_tt, objective, vol_fraction, penal, obj_0,
    alpha, volumes)], with [alpha] read from the variable. *)
Definition loss_function (density_new_tt objective : list float)
    (vol_fraction penal obj_0 : float) (volumes : list float) : M float :=
  fun s =>
    (Ok (TopOptLoss_forward density_new_tt objective vol_fraction penal
           obj_0 (st_alpha s) volumes),
     log (EvLoss obj_0 (st_alpha s)) s).

(** [loss.backward(retain_graph=True)]: the gradient of the loss just
    computed is accumulated into the stored gradients; where none is stored
    it is stored itself. *)
Definition loss_backward (mid_points : list Coord) (objective : list float)
    (vol_fraction penal obj_0 alpha : float) (volumes : list float)
    : M unit :=
  modify (fun s =>
    let g := TopOptLoss_backward (st_params s) mid_points objective
               vol_fraction penal obj_0 alpha volumes in
    log EvBackward
        (set_grads
           (match st_grads s with
            | Some old => Some (grad_accumulate old g)
            | None => Some g
            end)
           s)).

(** [alpha = min(alpha_max, alpha + alpha_increment)] *)
Definition update_alpha (c : Config) : M unit :=
  modify (fun s =>
    let a := anneal c (st_alpha s) in log (EvAnneal a) (set_alpha a s)).

(** [torch.nn.utils.clip_grad_norm_(top_optimizer.parameters(),
    nrm_threshold)] *)
Definition clip_grad_norm_ (nrm_threshold : float) : M unit :=
  modify (fun s =>
    log (EvClipGrad nrm_threshold)
        (set_grads
           (option_map (fun g => clip_grad_norm g nrm_threshold)
              (st_grads s))
           s)).

(** [optimizer.step()]: parameters without a gradient are left alone. *)
Definition optimizer_step (c : Config) : M unit :=
  modify (fun s =>
    log EvOptimizerStep
        (match st_grads s with
         | Some g =>
             set_params
               (Adam_step (learning_rate c) (st_params s) (st_opt s) g) s
         | None => s
         end)).

(** [xdmf.write(density, epoch)] *)
Definition xdmf_write (epoch : Z) : M unit :=
  modify (fun s =>
    log (EvXdmfWrite epoch) (push_frame (epoch, st_density s) s)).

(** [training_data.append(row)] *)
Definition training_data_append (r : Row) : M unit :=
  modify (fun s => log (EvAppend r) (push_row r s)).

(** [print(...)] *)
Definition print (l : ConsoleLine) : M unit :=
  modify (fun s => log (EvPrint l) (push_line l s)).

(** Binding the loop variable. *)
Definition store_epoch (e : Z) : M unit := modify (set_epoch e).

(** Reading the variable [epoch]. *)
Definition load_epoch : M Z :=
  fun s =>
    match st_epoch s with
    | Some e => (Ok e, s)
    | None => (Raise (NameError "epoch"), s)
    end.

(** A Python float literal as NumPy takes it when it is compared with a
    float32 element: the literal itself where the comparison is promoted to
    float64 (NumPy 1), its float32 rounding where Python floats are weak
    (NumPy >= 2). *)
Definition grey_limit (t : float) : float :=
  if numpy_nep50 then float32_of t else t.

(** The test [(rho > 0.05) & (rho < 0.95)] on an element [rho] of the
    float32 array. *)
Definition is_grey (rho : float) : bool :=
  PrimFloat.ltb (grey_limit 0.05%float) rho
  && PrimFloat.ltb rho (grey_limit 0.95%float).

(** [sum(1 for rho in density_new_np if ((rho > 0.05) & (rho < 0.95)))] *)
Definition grey_elements (density_new_np : list float) : Z :=
  fold_left (fun acc rho => if is_grey rho then acc + 1 else acc)
    density_new_np 0.

(** [grey_elements / len(density_new_np)] *)
Definition rel_grey_elements (density_new_np : list float) : Result float :=
  Py.truediv (grey_elements density_new_np)
    (Z.of_nat (List.length density_new_np)).

(** ** Lines 111-134: reference solve and tensors *)

(** The values computed before the loop and only read inside it. *)
Record Context_ : Type := {
  obj_0 : float;
  mid_points : list Coord;
  volumes : list float;
  vol_fraction : float
}.

(** [torch.tensor(create_mid_points(mesh, dim), ...).float()] *)
Definition mid_points_tensor (c : Config) : list Coord :=
  map (map to_float32) (create_mid_points (mesh c) (dim c)).

Definition prepare (c : Config) : M Context_ :=
  assign_density (repeat 0.5%float (num_cells (mesh c))) ;;
  solver_solve c ;;
  psi <- project_psi_vector c ;;
  let psi_0 := np_sum psi in
  let obj_0 := PrimFloat.mul (float_pow (volume_ratio c) (penal c)) psi_0 in
  xdmf_write 0 ;;
  d <- gets st_density ;;
  training_data_append
    {| row_epoch := 0; row_objective := obj_0;
       row_density_avg := np_average d |} ;;
  let mid_points := mid_points_tensor c in
  let volumes := tensor_float (cell_volumes (mesh c)) in
  let vol_fraction := torch_mul (torch_sum volumes) (volume_ratio c) in
  ret {| obj_0 := obj_0; mid_points := mid_points; volumes := volumes;
         vol_fraction := vol_fraction |}.

(** ** Lines 138-190: the body of the training loop *)

Definition iteration (c : Config) (x : Context_) (epoch : Z) : M unit :=
  zero_grad ;;
  density_new_tt <- top_optimizer (mid_points x) ;;
  let density_new_np := density_new_tt in
  assign_density density_new_np ;;
  solver_solve c ;;
  psi_vector <- project_psi_vector c ;;
  let objective :=
    tensor_float
      (np_multiply
         (np_power density_new_np (PrimFloat.mul 2%float (penal c)))
         psi_vector) in
  alpha <- gets st_alpha ;;
  loss <- loss_function density_new_tt objective (vol_fraction x) (penal c)
            (obj_0 x) (volumes x) ;;
  loss_backward (mid_points x) objective (vol_fraction x) (penal c)
    (obj_0 x) alpha (volumes x) ;;
  update_alpha c ;;
  clip_grad_norm_ (nrm_threshold c) ;;
  optimizer_step c ;;
  rel_grey <- lift (rel_grey_elements density_new_np) ;;
  xdmf_write epoch ;;
  let objective_sum := torch_sum objective in
  let density_avg := np_average density_new_np in
  let loss_item := loss in
  training_data_append
    {| row_epoch := epoch; row_objective := objective_sum;
       row_density_avg := density_avg |} ;;
  if epoch mod log_interval =? 0
  then print (Progress epoch objective_sum density_avg loss_item rel_grey)
  else ret tt.

(** [for x in xs: body(x)] *)
Fixpoint for_each {A} (xs : list A) (body : A -> M unit) : M unit :=
  match xs with
  | [] => ret tt
  | x :: xs' => body x ;; for_each xs' body
  end.

(** [for epoch in range(1, max_epochs): ...] *)
Definition training_loop (c : Config) (x : Context_) : M unit :=
  for_each (Py.range 1 (max_epochs c))
    (fun epoch => store_epoch epoch ;; iteration c x epoch).

(** ** Lines 192-215: time cost and output files *)

(** Modelled from the spec: [write_to_csv] of [utils/utils.py], which is not
    part of the sources at hand; the file holds one row per entry of the
    training record, in order. *)
Definition write_to_csv (training_data : list Row) (directory : string)
    : M unit :=
  modify (fun s =>
    log EvWriteCsv (push_file (CsvFile directory training_data) s)).

(** Modelled from the spec: [write_optimization_data] of [utils/utils.py],
    which is not part of the sources at hand; the file records the
    dictionary it is given. *)
Definition write_optimization_data (name directory : string)
    (data : list (string * MetaValue)) : M unit :=
  modify (fun s =>
    log EvWriteMeta (push_file (MetaFile name directory data) s)).

Definition finish (c : Config) : M unit :=
  let elapsed := PrimFloat.sub time_stop time_start in
  let elapsed := strftime_HMS elapsed in
  print (TimeCost elapsed) ;;
  training_data <- gets st_training_data ;;
  write_to_csv training_data data_directory ;;
  epoch <- load_epoch ;;
  write_optimization_data NAME data_directory
    [ ("Dimension", MInt (dim c));
      ("Learning rate", MFloat (learning_rate c));
      ("Number of layers", MInt (numbers_of_layers c));
      ("Volume fraction", MFloat (volume_ratio c));
      ("Penalty", MFloat (penal c));
      ("Max epochs", MInt (max_epochs c));
      ("Min epochs", MInt (min_epochs c));
      ("Time", MStr elapsed);
      ("Epochs", MInt epoch);
      ("Clipping threshold", MFloat (nrm_threshold c)) ]%string.

(** ** The whole script *)

Definition script (c : Config) : M unit :=
  x <- prepare c ;;
  training_loop c x ;;
  finish c.

Definition run (c : Config) : Result unit * State :=
  script c (initial_state c).

End Program.

(** ** Observations on a run *)

Section Observations.

Context {E : Externals}.

(** The events logged between two states of one execution. *)
Definition events_since (s s' : State) : list Event :=
  skipn (List.length (st_trace s)) (st_trace s').

(** The events of one iteration of the loop body started in [s]. *)
Definition iteration_events (c : Config) (x : Context_) (epoch : Z)
    (s : State) : list Event :=
  events_since s (snd (iteration c x epoch s)).

(** The state and the context at the head of the training loop. *)
Definition prepared (c : Config) : Result Context_ * State :=
  prepare c (initial_state c).

(** The values [alpha] is assigned by the loop, in order. *)
Fixpoint anneals (tr : list Event) : list float :=
  match tr with
  | [] => []
  | EvAnneal a :: tr' => a :: anneals tr'
  | _ :: tr' => anneals tr'
  end.

(** Every value the variable [alpha] holds during a run. *)
Definition alpha_history (c : Config) : list float :=
  st_alpha (initial_state c) :: anneals (st_trace (snd (run c))).

(** The [obj_0] arguments of the calls to the loss, in order. *)
Fixpoint loss_references (tr : list Event) : list float :=
  match tr with
  | [] => []
  | EvLoss o _ :: tr' => o :: loss_references tr'
  | _ :: tr' => loss_references tr'
  end.

(** Everything of a final state but the files written. *)
Definition training_view (s : State) :=
  (st_params s, st_opt s, st_grads s, st_density s, st_u_sol s,
   st_alpha s, st_epoch s, st_training_data s, st_xdmf s, st_console s,
   st_trace s).

End Observations.

(** [alpha] after [n] updates. *)
Fixpoint alpha_after (c : Config) (n : nat) : float :=
  match n with
  | O => alpha_increment c
  | S k => anneal c (alpha_after c k)
  end.

(** Consecutive values do not decrease. *)
Fixpoint nondecreasing (l : list float) : Prop :=
  match l with
  | a :: ((b :: _) as l') => PrimFloat.leb a b = true /\ nondecreasing l'
  | _ => True
  end.

(** The kinds of the calls of one complete iteration, in source order. *)
Definition body_kinds : list Kind :=
  [KZeroGrad; KForward; KAssignDensity; KSolve; KProject; KLoss; KBackward;
   KAnneal; KClipGrad; KOptimizerStep; KXdmfWrite; KAppend; KPrint].

(** The steps the training state machine names after the loss. *)
Definition is_late_step (k : Kind) : bool :=
  match k with
  | KBackward | KAnneal | KClipGrad | KOptimizerStep
  | KXdmfWrite | KAppend | KPrint => true
  | _ => false
  end.

(** A metadata file without its ["Min epochs"] entry. *)
Definition forget_min_epochs (f : OutFile) : OutFile :=
  match f with
  | MetaFile n d data =>
      MetaFile n d
        (filter (fun kv => negb (String.eqb (fst kv) "Min epochs")) data)
  | CsvFile d rows => CsvFile d rows
  end.

(** ** A small instance of the collaborators, for concrete runs

    Four cells; the network's parameters are the four densities themselves
    and the optimizer moves each of them by the learning rate times its
    gradient. *)

Definition toy : Externals := {|
  Mesh := Z * Z;
  Disp := list float;
  Params := list float;
  Grads := list float;
  OptState := nat;
  RectangleMesh := fun nx ny => (nx, ny);
  num_cells := fun _ => 4%nat;
  cell_volumes := fun _ => repeat 0.5%float 4;
  Function_zero := fun _ => repeat 0%float 4;
  LinearVariationalSolver_solve := fun _ _ d => d;
  project_psi := fun _ u => u;
  create_mid_points := fun _ _ =>
    [[0.25; 0.5]; [0.75; 0.5]; [1.25; 0.5]; [1.75; 0.5]]%float;
  create_time_stamp := "20200101-000000"%string;
  weight_init := fun p => p;
  TopOptimizerNN_init := fun _ _ _ _ => [0.02; 0.5; 0.97; 0.3]%float;
  TopOptimizerNN_forward := fun p xs =>
    map (fun i => nth i p 0.5%float) (seq 0 (List.length xs));
  TopOptLoss_forward := fun _ _ _ _ _ alpha _ => alpha;
  TopOptLoss_backward := fun p _ _ _ _ _ _ _ => map (fun _ => 1%float) p;
  to_float32 := fun v => v;
  torch_sum := fun l => fold_left PrimFloat.add l 0%float;
  torch_mul := PrimFloat.mul;
  Adam_init := fun _ _ => O;
  Adam_step := fun lr p o g =>
    (map (fun pg => PrimFloat.sub (fst pg) (PrimFloat.mul lr (snd pg)))
       (combine p g), S o);
  clip_grad_norm := fun g _ => g;
  grad_accumulate := fun old g =>
    map (fun og => PrimFloat.add (fst og) (snd og)) (combine old g);
  numpy_nep50 := false;
  np_sum := fun l => fold_left PrimFloat.add l 0%float;
  np_average := fun l =>
    PrimFloat.div (fold_left PrimFloat.add l 0%float)
      (Py.float_of_Z (Z.of_nat (List.length l)));
  np_power := fun l _ => l;
  np_multiply := fun a b =>
    map (fun ab => PrimFloat.mul (fst ab) (snd ab)) (combine a b);
  float_pow := fun a _ => a;
  time_start := 0%float;
  time_stop := 1%float;
  strftime_HMS := fun _ => "00:00:01"%string
|}.

(** A short run on the small instance: three epochs at most. *)
Definition toy_config : Config := with_max_epochs 3 script_config.

(** ** The density predictor *)

Module TopOptimizerNN.

Local Open Scope R_scope.

(** Modelled from the spec: the class [TopOptimizerNN] of
    [nn/top_optimizer_nn.py], which is not part of the sources at hand.
    The design describes a feed-forward network: an input layer of
    dimension [d], hidden layers of a fixed width with a nonlinear
    activation between layers, and a final softmax normalisation; it is
    evaluated independently at each cell centroid.  Arithmetic is that of
    the real numbers. *)
Record Layer : Type := {
  weights : list (list R);
  bias : list R
}.

Record Net : Type := {
  activation : R -> R;
  hidden : list Layer;
  output : Layer
}.

Definition total (l : list R) : R := fold_right Rplus 0 l.

Definition dot (u v : list R) : R :=
  total (map (fun p => fst p * snd p) (combine u v)).

(** Modelled from the spec: an affine layer, one output per row of the
    weight matrix. *)
Definition linear (l : Layer) (x : list R) : list R :=
  map (fun wb => dot (fst wb) x + snd wb) (combine (weights l) (bias l)).

Definition hidden_pass (act : R -> R) (ls : list Layer) (x : list R)
    : list R :=
  fold_left (fun h l => map act (linear l h)) ls x.

(** Modelled from the spec: the output normalisation (softmax). *)
Definition softmax (z : list R) : list R :=
  map (fun zi => exp zi / total (map exp z)) z.

(** Modelled from the spec: the normalised outputs of the network at one
    coordinate. *)
Definition outputs (net : Net) (x : list R) : list R :=
  softmax (linear (output net) (hidden_pass (activation net) (hidden net) x)).

(** Modelled from the spec: the density at one coordinate, the leading
    normalised output. *)
Definition density (net : Net) (x : list R) : R := hd 0 (outputs net x).

(** Modelled from the spec: a forward evaluation on a batch of coordinates,
    each evaluated independently. *)
Definition forward (net : Net) (xs : list (list R)) : list R :=
  map (density net) xs.

End TopOptimizerNN.



(** The context the small instance computes before its loop. *)
Definition toy_context : Context_ := {|
  obj_0 := 0.6%float;
  mid_points := mid_points_tensor (E := toy) toy_config;
  volumes := repeat 0.5%float 4;
  vol_fraction := 0.6%float
|}.

(** One step of the penalty schedule respects order and cap. *)
Definition schedule_step_ok (c : Config) (n : nat) : bool :=
  PrimFloat.leb (alpha_after c n) (alpha_after c (S n))
  && PrimFloat.leb (alpha_after c n) (alpha_max c).

(** The [alpha] arguments of the calls to the loss, in order. *)
Fixpoint loss_alphas (tr : list Event) : list float :=
  match tr with
  | [] => []
  | EvLoss _ a :: tr' => a :: loss_alphas tr'
  | _ :: tr' => loss_alphas tr'
  end.

(** ** Boundary regions of the finite-element problem

    The two compiled sub-domain expressions of lines 79 and 84, as tests on
    the coordinates [x[0]], [x[1]] of a point; the parameter [l] is passed
    as a double. *)

(** ["x[0]<=2 && x[1]==0 || x[0]>=(l-2) && x[1]==0"] with [l=nelx] *)
Definition support (c : Config) (x0 x1 : float) : bool :=
  let l := Py.float_of_Z (nelx c) in
  (PrimFloat.leb x0 2%float && PrimFloat.eqb x1 0%float)
  || (PrimFloat.leb (PrimFloat.sub l 2%float) x0 && PrimFloat.eqb x1 0%float).

(** ["x[0]>=(l-1) && x[0]<=(l+1) && x[1]==0"] with [l=(nelx / 2)] *)
Definition load_region (c : Config) (x0 x1 : float) : bool :=
  let l := PrimFloat.div (Py.float_of_Z (nelx c)) (Py.float_of_Z 2) in
  PrimFloat.leb (PrimFloat.sub l 1%float) x0
  && PrimFloat.leb x0 (PrimFloat.add l 1%float)
  && PrimFloat.eqb x1 0%float.

(** The script's parameters with another volume ratio. *)
Definition with_volume_ratio (v : float) (c : Config) : Config := {|
  nelx := nelx c; nely := nely c; volume_ratio := v;
  penal := penal c; learning_rate := learning_rate c;
  numbers_of_layers := numbers_of_layers c;
  nrm_threshold := nrm_threshold c; min_epochs := min_epochs c;
  max_epochs := max_epochs c; dim := dim c;
  alpha_increment := alpha_increment c
|}.


(** The epoch a console line reports; none for the elapsed-time line. *)
Definition line_epoch (l : ConsoleLine) : option Z :=
  match l with
  | Progress e _ _ _ _ => Some e
  | TimeCost _ => None
  end.

(** * Properties *)

(** ** Lists, traces and Python primitives *)

Lemma skipn_length_app {A} (l r : list A) :
  skipn (List.length l) (l ++ r) = r.
Proof. induction l as [|a l IH]; simpl; auto. Qed.

Lemma last_cons_default {A} (l : list A) : forall a d,
  last (a :: l) d = last l a.
Proof.
  induction l as [|b l IH]; intros a d; [reflexivity|].
  change (last (a :: b :: l) d) with (last (b :: l) d).
  now rewrite !IH.
Qed.

Lemma anneals_app (a b : list Event) :
  anneals (a ++ b) = anneals a ++ anneals b.
Proof.
  induction a as [|ev a IH]; simpl; auto.
  destruct ev; simpl; auto. now rewrite IH.
Qed.

Lemma loss_references_app (a b : list Event) :
  loss_references (a ++ b) = loss_references a ++ loss_references b.
Proof.
  induction a as [|ev a IH]; simpl; auto.
  destruct ev; simpl; auto. now rewrite IH.
Qed.

Lemma count_kind_app k (a b : list Event) :
  count_kind k (a ++ b) = (count_kind k a + count_kind k b)%nat.
Proof. unfold count_kind. now rewrite filter_app, length_app. Qed.

Lemma range_spec lo hi e : In e (Py.range lo hi) <-> lo <= e < hi.
Proof.
  unfold Py.range. rewrite in_map_iff. split.
  - intros (i & <- & Hi). apply in_seq in Hi. lia.
  - intros H. exists (Z.to_nat (e - lo)). split; [lia|].
    apply in_seq. lia.
Qed.

Lemma range_length lo hi : List.length (Py.range lo hi) = Z.to_nat (hi - lo).
Proof. unfold Py.range. now rewrite length_map, length_seq. Qed.

Lemma range_empty lo hi : hi <= lo -> Py.range lo hi = [].
Proof.
  intros H. unfold Py.range.
  replace (Z.to_nat (hi - lo)) with O by lia. reflexivity.
Qed.

Lemma mod_log_interval e : (e mod log_interval =? 0) = true.
Proof. unfold log_interval. now rewrite Z.mod_1_r. Qed.

Section GreyElements.

Context {E : Externals}.

Lemma grey_elements_from acc d :
  fold_left (fun a rho => if is_grey rho then a + 1 else a) d acc
  = acc + Z.of_nat (List.length (filter is_grey d)).
Proof.
  revert acc. induction d as [|rho d IH]; intros acc; simpl.
  - lia.
  - rewrite IH. destruct (is_grey rho); simpl List.length; lia.
Qed.

Lemma grey_elements_count d :
  grey_elements d = Z.of_nat (List.length (filter is_grey d)).
Proof. unfold grey_elements. now rewrite grey_elements_from. Qed.

Lemma rel_grey_elements_nonempty d :
  d <> [] ->
  rel_grey_elements d
  = Ok (PrimFloat.div
          (Py.float_of_Z (Z.of_nat (List.length (filter is_grey d))))
          (Py.float_of_Z (Z.of_nat (List.length d)))).
Proof.
  intros Hd. unfold rel_grey_elements, Py.truediv.
  destruct (Z.eqb_spec (Z.of_nat (List.length d)) 0) as [H0|_].
  - destruct d; [congruence | simpl in H0; lia].
  - now rewrite grey_elements_count.
Qed.

Lemma rel_grey_elements_empty : rel_grey_elements [] = Raise ZeroDivisionError.
Proof. reflexivity. Qed.

End GreyElements.

(** ** One iteration of the loop body *)

Ltac unfold_ops :=
  unfold iteration, prepare, finish, bind, zero_grad, top_optimizer,
    assign_density, solver_solve, project_psi_vector, gets, loss_function,
    loss_backward, update_alpha, clip_grad_norm_, optimizer_step, lift,
    xdmf_write, training_data_append, print, store_epoch, load_epoch,
    write_to_csv, write_optimization_data, modify, ret.

(** Runs the body symbolically and splits on whether the predicted density
    array is empty, the one place where the body can raise. *)
Ltac run_iteration s x :=
  unfold iteration_events, events_since; unfold_ops; cbn;
  rewrite ?mod_log_interval;
  let d := fresh "d" in
  let Hd := fresh "Hd" in
  destruct (TopOptimizerNN_forward (st_params s) (mid_points x))
    as [|? d] eqn:Hd;
  cbn; rewrite <- ?app_assoc, ?skipn_length_app; cbn.

Section IterationFacts.

Context {E : Externals}.
Variables (c : Config) (x : Context_) (e : Z) (s : State).

Let d := TopOptimizerNN_forward (st_params s) (mid_points x).

Lemma iteration_fst_nonempty :
  d <> [] -> fst (iteration c x e s) = Ok tt.
Proof. subst d. run_iteration s x; [congruence | reflexivity]. Qed.

Lemma iteration_fst_empty :
  d = [] -> fst (iteration c x e s) = Raise ZeroDivisionError.
Proof. subst d. run_iteration s x; [reflexivity | congruence]. Qed.

Lemma iteration_extends :
  st_trace (snd (iteration c x e s))
  = st_trace s ++ iteration_events c x e s.
Proof. run_iteration s x; rewrite <- ?app_assoc; reflexivity. Qed.

Lemma iteration_kinds :
  d <> [] -> map kind (iteration_events c x e s) = body_kinds.
Proof. subst d. run_iteration s x; [congruence | reflexivity]. Qed.

Lemma iteration_kinds_raise :
  d = [] -> map kind (iteration_events c x e s) = firstn 10 body_kinds.
Proof. subst d. run_iteration s x; [reflexivity | congruence]. Qed.

Lemma iteration_counts :
  count_kind KSolve (iteration_events c x e s) = 1%nat
  /\ count_kind KOptimizerStep (iteration_events c x e s) = 1%nat.
Proof. run_iteration s x; split; reflexivity. Qed.

Lemma iteration_anneals :
  anneals (iteration_events c x e s) = [anneal c (st_alpha s)].
Proof. run_iteration s x; reflexivity. Qed.

Lemma iteration_alpha :
  st_alpha (snd (iteration c x e s)) = anneal c (st_alpha s).
Proof. run_iteration s x; reflexivity. Qed.

Lemma iteration_loss_references :
  loss_references (iteration_events c x e s) = [obj_0 x].
Proof. run_iteration s x; reflexivity. Qed.

Lemma iteration_epoch :
  st_epoch (snd (iteration c x e s)) = st_epoch s.
Proof. run_iteration s x; reflexivity. Qed.

Lemma iteration_rows :
  d <> [] ->
  map row_epoch (st_training_data (snd (iteration c x e s)))
  = map row_epoch (st_training_data s) ++ [e].
Proof.
  subst d. run_iteration s x; [congruence |].
  intros _. now rewrite map_app.
Qed.

Lemma iteration_console :
  d <> [] ->
  exists objective_sum density_avg loss_item,
    st_console (snd (iteration c x e s))
    = st_console s
      ++ [Progress e objective_sum density_avg loss_item
            (PrimFloat.div
               (Py.float_of_Z (Z.of_nat (List.length (filter is_grey d))))
               (Py.float_of_Z (Z.of_nat (List.length d))))].
Proof.
  intros Hne. unfold iteration_events, events_since. unfold_ops. cbn.
  rewrite mod_log_interval. fold d.
  rewrite (rel_grey_elements_nonempty d Hne). cbn.
  eexists _, _, _. reflexivity.
Qed.

End IterationFacts.

(** ** The training loop *)

Section LoopFacts.

Context {E : Externals}.
Variables (c : Config) (x : Context_).

Let body : Z -> M unit :=
  fun epoch => bind (store_epoch epoch) (fun _ => iteration c x epoch).

Lemma body_unfold e s : body e s = iteration c x e (set_epoch e s).
Proof. reflexivity. Qed.

Lemma for_each_cons e es s :
  for_each (e :: es) body s
  = match body e s with
    | (Ok _, s') => for_each es body s'
    | (Raise ex, s') => (Raise ex, s')
    end.
Proof. reflexivity. Qed.

(** What holds of the loop whether or not an iteration raises. *)
Lemma loop_invariant es : forall s,
  exists evs k,
    st_trace (snd (for_each es body s)) = st_trace s ++ evs
    /\ (k <= List.length es)%nat
    /\ anneals evs
       = map (fun i => Nat.iter i (anneal c) (st_alpha s)) (seq 1 k)
    /\ st_alpha (snd (for_each es body s))
       = Nat.iter k (anneal c) (st_alpha s)
    /\ Forall (fun o => o = obj_0 x) (loss_references evs).
Proof.
  induction es as [|e es IH]; intros s.
  - exists [], O. cbn. rewrite app_nil_r. repeat split; auto.
  - rewrite for_each_cons, body_unfold.
    pose proof (iteration_extends c x e (set_epoch e s)) as Hext.
    pose proof (iteration_anneals c x e (set_epoch e s)) as Han.
    pose proof (iteration_alpha c x e (set_epoch e s)) as Hal.
    pose proof (iteration_loss_references c x e (set_epoch e s)) as Hlo.
    cbn [st_trace st_alpha set_epoch] in Hext, Han, Hal.
    destruct (iteration c x e (set_epoch e s)) as [[[]|ex] s'] eqn:Hit;
      cbn [snd] in *.
    + destruct (IH s') as (evs & k & Htr & Hk & Hann & Halpha & Hloss).
      exists (iteration_events c x e (set_epoch e s) ++ evs), (S k).
      rewrite Htr, Hext, <- app_assoc.
      rewrite anneals_app, loss_references_app, Han, Hlo, Hann, Halpha, Hal.
      repeat split.
      * cbn [List.length]. lia.
      * cbn [seq map app Nat.iter]. f_equal.
        rewrite <- (seq_shift k 1), map_map.
        apply map_ext. intros i. now rewrite Nat.iter_succ_r.
      * now rewrite Nat.iter_succ_r.
      * constructor; auto.
    + exists (iteration_events c x e (set_epoch e s)), 1%nat.
      rewrite Hext, Han, Hlo, Hal. repeat split.
      * cbn [List.length]. lia.
      * constructor; auto.
Qed.

(** What holds when the predictor never returns an empty array. *)
Hypothesis forward_nonempty :
  forall p, TopOptimizerNN_forward p (mid_points x) <> [].

Lemma loop_complete es : forall s,
  exists evs s',
    for_each es body s = (Ok tt, s')
    /\ st_trace s' = st_trace s ++ evs
    /\ map kind evs = flat_map (fun _ => body_kinds) es
    /\ map row_epoch (st_training_data s')
       = map row_epoch (st_training_data s) ++ es
    /\ st_epoch s' = last (map Some es) (st_epoch s).
Proof.
  induction es as [|e es IH]; intros s.
  - exists [], s. cbn. rewrite !app_nil_r. repeat split; auto.
  - rewrite for_each_cons, body_unfold.
    pose proof (iteration_extends c x e (set_epoch e s)) as Hext.
    pose proof (iteration_fst_nonempty c x e (set_epoch e s)
                  (forward_nonempty _)) as Hok.
    pose proof (iteration_kinds c x e (set_epoch e s)
                  (forward_nonempty _)) as Hk.
    pose proof (iteration_rows c x e (set_epoch e s)
                  (forward_nonempty _)) as Hrows.
    pose proof (iteration_epoch c x e (set_epoch e s)) as Hep.
    cbn [st_trace st_training_data st_epoch set_epoch] in Hext, Hrows, Hep.
    destruct (iteration c x e (set_epoch e s)) as [r s1] eqn:Hit.
    cbn [fst snd] in *. subst r.
    destruct (IH s1) as (evs & s' & Hrun & Htr & Hkinds & Hdata & Hepoch).
    exists (iteration_events c x e (set_epoch e s) ++ evs), s'.
    rewrite Hrun, Htr, Hext, Hdata, Hrows, Hepoch, Hep, <- !app_assoc.
    rewrite map_app, Hk, Hkinds. repeat split.
    cbn [map]. symmetry. apply last_cons_default.
Qed.

End LoopFacts.

(** ** Before and after the loop *)

Section RunFacts.

Context {E : Externals}.

(** The uniform array assigned at line 113. *)
Let half (c : Config) : list float :=
  repeat 0.5%float (num_cells (mesh c)).

Lemma prepare_run c :
  exists x s1,
    prepared c = (Ok x, s1)
    /\ obj_0 x
       = PrimFloat.mul (float_pow (volume_ratio c) (penal c))
           (np_sum
              (project_psi (mesh c)
                 (LinearVariationalSolver_solve (mesh c) (penal c)
                    (half c))))
    /\ mid_points x = mid_points_tensor c
    /\ st_trace s1
       = [EvAssignDensity (half c); EvSolve (half c); EvProject;
          EvXdmfWrite 0;
          EvAppend {| row_epoch := 0; row_objective := obj_0 x;
                      row_density_avg := np_average (half c) |}]
    /\ st_training_data s1
       = [{| row_epoch := 0; row_objective := obj_0 x;
             row_density_avg := np_average (half c) |}]
    /\ st_alpha s1 = alpha_increment c
    /\ st_epoch s1 = None
    /\ st_files s1 = [].
Proof.
  unfold prepared, initial_state. unfold_ops. cbn.
  eexists _, _. repeat split; reflexivity.
Qed.

Lemma run_unfold c :
  run c
  = match prepared c with
    | (Ok x, s1) =>
        match training_loop c x s1 with
        | (Ok _, s2) => finish c s2
        | (Raise ex, s2) => (Raise ex, s2)
        end
    | (Raise ex, s1) => (Raise ex, s1)
    end.
Proof. reflexivity. Qed.

(** With [epoch] unbound the CSV file is written and building the
    metadata dictionary raises. *)
Lemma finish_unbound c s :
  st_epoch s = None ->
  exists s',
    finish c s = (Raise (NameError "epoch"), s')
    /\ st_files s'
       = st_files s ++ [CsvFile data_directory (st_training_data s)]
    /\ count_kind KWriteMeta (st_trace s')
       = count_kind KWriteMeta (st_trace s).
Proof.
  intros He. unfold_ops. cbn -[data_directory]. rewrite He.
  cbn -[data_directory]. eexists. repeat split.
  cbn -[data_directory count_kind]. rewrite !count_kind_app. cbn. lia.
Qed.

Lemma finish_bound c s e :
  st_epoch s = Some e ->
  exists s' data,
    finish c s = (Ok tt, s')
    /\ st_files s'
       = st_files s
         ++ [CsvFile data_directory (st_training_data s);
             MetaFile NAME data_directory data]
    /\ In ("Epochs"%string, MInt e) data
    /\ In ("Max epochs"%string, MInt (max_epochs c)) data
    /\ In ("Min epochs"%string, MInt (min_epochs c)) data.
Proof.
  intros He. unfold_ops. cbn -[data_directory NAME]. rewrite He.
  cbn -[data_directory NAME].
  eexists _, _. split; [reflexivity|]. cbn -[data_directory NAME].
  rewrite <- app_assoc. split; [reflexivity|]. cbn. intuition.
Qed.

(** The closing statements add no solver, loss or annealing event. *)
Lemma finish_trace c s :
  exists evs,
    st_trace (snd (finish c s)) = st_trace s ++ evs
    /\ anneals evs = []
    /\ loss_references evs = []
    /\ count_kind KSolve evs = O
    /\ count_kind KOptimizerStep evs = O.
Proof.
  unfold_ops. cbn. destruct (st_epoch s); cbn;
    rewrite <- ?app_assoc; eexists; repeat split; reflexivity.
Qed.

(** Nothing before or inside the loop reads [min_epochs]. *)
Lemma prepared_min_epochs c m : prepared (with_min_epochs m c) = prepared c.
Proof.
  unfold prepared, initial_state, mid_points_tensor, mesh. unfold_ops.
  cbn. reflexivity.
Qed.

Lemma iteration_min_epochs c m x e :
  iteration (with_min_epochs m c) x e = iteration c x e.
Proof.
  unfold iteration, solver_solve, update_alpha, optimizer_step, anneal,
    alpha_max, mesh.
  cbn [with_min_epochs nelx nely volume_ratio penal learning_rate
       numbers_of_layers nrm_threshold max_epochs dim alpha_increment].
  reflexivity.
Qed.

Lemma for_each_ext {A} (f g : A -> M unit) (xs : list A) :
  (forall a s, f a s = g a s) ->
  forall s, for_each xs f s = for_each xs g s.
Proof.
  intros Hfg. induction xs as [|a xs IH]; intros s; [reflexivity|].
  cbn [for_each]. unfold bind. rewrite Hfg.
  destruct (g a s) as [[u|ex] s']; [apply IH | reflexivity].
Qed.

Lemma training_loop_min_epochs c m x s :
  training_loop (with_min_epochs m c) x s = training_loop c x s.
Proof.
  unfold training_loop. cbn [with_min_epochs max_epochs].
  apply for_each_ext. intros a s0. now rewrite iteration_min_epochs.
Qed.

End RunFacts.

(** * The claims *)

Example toy_prepared : fst (prepared (E := toy) toy_config) = Ok toy_context.
Proof. vm_compute. reflexivity. Qed.

(** ** C1: order of the steps of an iteration *)

(** C1, as amended.  In every training iteration that completes, the steps
    after the loss occur in the order: backpropagation, penalty-weight
    annealing, gradient clipping, parameter update, logging (density frame,
    training record, progress line).  The penalty weight is annealed after
    the backward pass and before the optimizer step. *)
Theorem C1_iteration_order {E : Externals} (c : Config) (x : Context_)
    (e : Z) (s : State) :
  TopOptimizerNN_forward (st_params s) (mid_points x) <> [] ->
  filter is_late_step (map kind (iteration_events c x e s))
  = [KBackward; KAnneal; KClipGrad; KOptimizerStep;
     KXdmfWrite; KAppend; KPrint]
  /\ occurs_before KBackward KAnneal (iteration_events c x e s) = true
  /\ occurs_before KAnneal KClipGrad (iteration_events c x e s) = true
  /\ occurs_before KAnneal KOptimizerStep (iteration_events c x e s) = true.
Proof.
  run_iteration s x; [congruence | intros _; repeat split; reflexivity].
Qed.

Lemma C1_iteration_order_witness :
  TopOptimizerNN_forward (Externals := toy)
    (st_params (initial_state (E := toy) toy_config)) (mid_points toy_context)
  <> []
  /\ filter is_late_step
       (map kind
          (iteration_events (E := toy) toy_config toy_context 1
             (initial_state toy_config)))
     = [KBackward; KAnneal; KClipGrad; KOptimizerStep;
        KXdmfWrite; KAppend; KPrint].
Proof.
  assert (H : TopOptimizerNN_forward (Externals := toy)
                (st_params (initial_state (E := toy) toy_config))
                (mid_points toy_context) <> [])
    by (vm_compute; discriminate).
  split; [exact H|].
  exact (proj1 (C1_iteration_order (E := toy) toy_config toy_context 1
                  (initial_state toy_config) H)).
Defined.

(** C1 as stated fails: in the first iteration of the small run the steps
    are not in the order backpropagation, clipping, update, annealing,
    logging, and the optimizer step does not precede the annealing. *)
Lemma C1_counterexample :
  let s := snd (prepared (E := toy) toy_config) in
  let evs :=
    iteration_events (E := toy) toy_config toy_context 1 (set_epoch 1 s) in
  TopOptimizerNN_forward (Externals := toy) (st_params s) (mid_points toy_context)
  <> []
  /\ filter is_late_step (map kind evs)
     <> [KBackward; KClipGrad; KOptimizerStep; KAnneal;
         KXdmfWrite; KAppend; KPrint]
  /\ occurs_before KOptimizerStep KAnneal evs = false.
Proof.
  vm_compute. repeat split; discriminate.
Qed.

(** ** C2: a run whose loop body never executes *)

(** C2, what the script does.  With [max_epochs <= 1] the loop body never
    runs; the CSV file is written with exactly the epoch-0 row, and the
    script then raises [NameError] on the unbound loop variable while
    building the metadata dictionary, so no metadata file is written. *)
Theorem C2_zero_epochs_run {E : Externals} (c : Config) :
  max_epochs c <= 1 ->
  exists s row,
    run c = (Raise (NameError "epoch"), s)
    /\ st_files s = [CsvFile data_directory [row]]
    /\ row_epoch row = 0
    /\ row_density_avg row
       = np_average (repeat 0.5%float (num_cells (mesh c)))
    /\ count_kind KWriteMeta (st_trace s) = O.
Proof.
  intros Hmax. rewrite run_unfold.
  destruct (prepare_run c)
    as (x & s1 & Hp & Hobj & _ & Htr & Hdata & _ & Hep & Hfiles).
  rewrite Hp. unfold training_loop. rewrite (range_empty 1 _ Hmax).
  cbn [for_each]. unfold ret.
  destruct (finish_unbound c s1 Hep) as (s' & Hfin & Hf & Hmeta).
  rewrite Hfin. eexists s', _. rewrite Hf, Hfiles, Hdata, Hmeta, Htr.
  cbn [app]. repeat split.
Qed.

(** ** C3: the penalty schedule *)

Lemma alpha_after_iter c n :
  alpha_after c n = Nat.iter n (anneal c) (alpha_increment c).
Proof. induction n as [|n IH]; cbn; [reflexivity | now rewrite IH]. Qed.

(** The schedule depends on the configuration through two values only. *)
Lemma alpha_after_script c n :
  volume_ratio c = 0.3%float -> alpha_increment c = 0.05%float ->
  alpha_after c n = alpha_after script_config n.
Proof.
  intros Hv Hi. induction n as [|n IH]; cbn [alpha_after].
  - exact Hi.
  - rewrite IH. unfold anneal, alpha_max. now rewrite Hv, Hi.
Qed.

(** With the script's constants the weight reaches the cap at the 599th
    update (on binary64 floats) and stays there. *)
Lemma schedule_prefix :
  forallb (schedule_step_ok script_config) (seq 0 600) = true.
Proof. vm_compute. reflexivity. Qed.

Lemma schedule_cap_reached :
  alpha_after script_config 599 = alpha_max script_config.
Proof. vm_compute. reflexivity. Qed.

Lemma schedule_cap_fixed :
  anneal script_config (alpha_max script_config) = alpha_max script_config.
Proof. vm_compute. reflexivity. Qed.

Lemma schedule_capped n :
  (599 <= n)%nat -> alpha_after script_config n = alpha_max script_config.
Proof.
  induction 1 as [|n Hle IH].
  - exact schedule_cap_reached.
  - cbn [alpha_after]. rewrite IH. exact schedule_cap_fixed.
Qed.

Lemma schedule_step n : schedule_step_ok script_config n = true.
Proof.
  destruct (Nat.lt_ge_cases n 600) as [Hlt|Hge].
  - pose proof schedule_prefix as Hall.
    rewrite forallb_forall in Hall. apply Hall. apply in_seq. lia.
  - unfold schedule_step_ok.
    rewrite (schedule_capped n), (schedule_capped (S n)) by lia.
    vm_compute. reflexivity.
Qed.

Lemma nondecreasing_map_seq (f : nat -> float) :
  (forall n, PrimFloat.leb (f n) (f (S n)) = true) ->
  forall k j, nondecreasing (map f (seq j k)).
Proof.
  intros Hf. induction k as [|k IH]; intros j; [exact I|].
  cbn [seq map]. destruct k as [|k]; [exact I|].
  specialize (IH (S j)). cbn [seq map] in IH |- *. split; [apply Hf | exact IH].
Qed.

(** The values of [alpha] over a run are an initial segment of the
    schedule. *)
Lemma alpha_history_schedule {E : Externals} (c : Config) :
  exists k, alpha_history c = map (alpha_after c) (seq 0 (S k)).
Proof.
  unfold alpha_history. rewrite run_unfold.
  destruct (prepare_run c)
    as (x & s1 & Hp & _ & _ & Htr & _ & Hal & _ & _).
  rewrite Hp. unfold training_loop.
  destruct (loop_invariant c x (Py.range 1 (max_epochs c)) s1)
    as (evs & k & Hext & _ & Hann & _ & _).
  exists k.
  assert (Hs : forall s2 : State,
             st_trace s2 = st_trace s1 ++ evs ->
             forall evs', anneals evs' = [] ->
             alpha_increment c :: anneals (st_trace s2 ++ evs')
             = map (alpha_after c) (seq 0 (S k))).
  { intros s2 H2 evs' H'. rewrite H2, Htr, !anneals_app, Hann, H', Hal.
    cbn [anneals app seq map alpha_after]. rewrite app_nil_r. f_equal.
    apply map_ext. intros i. now rewrite alpha_after_iter. }
  destruct (for_each _ _ s1) as [[u|ex] s2]; cbn [snd] in Hext.
  - destruct (finish_trace c s2) as (evs' & Hfin & Hnone & _).
    rewrite Hfin. cbn [initial_state st_alpha]. now apply Hs.
  - cbn [snd initial_state st_alpha].
    rewrite <- (app_nil_r (st_trace s2)). now apply Hs.
Qed.

(** C3.  With the script's constants ([volume_ratio = 0.3],
    [alpha_increment = 0.05]) and any number of epochs, [alpha] starts at
    [alpha_increment], never decreases from one epoch to the next, and
    never exceeds [alpha_max = 100 * volume_ratio]; the same holds of the
    schedule at every number of updates. *)
Theorem C3_alpha_schedule {E : Externals} (c : Config) :
  volume_ratio c = 0.3%float ->
  alpha_increment c = 0.05%float ->
  hd_error (alpha_history c) = Some (alpha_increment c)
  /\ nondecreasing (alpha_history c)
  /\ Forall (fun a => PrimFloat.leb a (alpha_max c) = true) (alpha_history c)
  /\ forall n,
       PrimFloat.leb (alpha_after c n) (alpha_after c (S n)) = true
       /\ PrimFloat.leb (alpha_after c n) (alpha_max c) = true.
Proof.
  intros Hv Hi.
  assert (Hstep : forall n,
             PrimFloat.leb (alpha_after c n) (alpha_after c (S n)) = true
             /\ PrimFloat.leb (alpha_after c n) (alpha_max c) = true).
  { intros n. rewrite !(alpha_after_script c _ Hv Hi).
    replace (alpha_max c) with (alpha_max script_config)
      by (unfold alpha_max; now rewrite Hv).
    pose proof (schedule_step n) as H. unfold schedule_step_ok in H.
    now apply andb_true_iff in H. }
  destruct (alpha_history_schedule c) as (k & Hk). rewrite Hk.
  repeat split.
  - apply nondecreasing_map_seq. intros n. apply Hstep.
  - apply Forall_forall. intros a Ha. apply in_map_iff in Ha.
    destruct Ha as (n & <- & _). apply Hstep.
  - apply Hstep.
  - apply Hstep.
Qed.

(** ** C4: one solve and one optimizer step per epoch *)

Lemma count_kind_kinds k (tr : list Event) :
  count_kind k tr = List.length (filter (kind_eqb k) (map kind tr)).
Proof.
  unfold count_kind. induction tr as [|ev tr IH]; cbn; [reflexivity|].
  destruct (kind_eqb k (kind ev)); cbn; now rewrite IH.
Qed.

Lemma count_flat_map_body k (es : list Z) :
  List.length (filter (kind_eqb k) (flat_map (fun _ => body_kinds) es))
  = (List.length es * List.length (filter (kind_eqb k) body_kinds))%nat.
Proof.
  induction es as [|e es IH]; [reflexivity|].
  cbn [flat_map]. rewrite filter_app, length_app, IH. cbn [List.length]. lia.
Qed.

(** C4.  Every iteration makes exactly one finite-element solve and exactly
    one optimizer step, and both take effect: the displacement is the
    solution for the density just predicted, and the parameters and the
    optimizer state after the iteration are one Adam step, on the clipped
    gradient of that iteration's loss, from those before it.  When the
    predictor returns a non-empty array, the loop completes, it runs the
    body once for each epoch index [e] with [1 <= e < max_epochs] in
    increasing order and for no other, so that it stops when the index
    reaches [max_epochs]. *)
Theorem C4_one_solve_one_step_per_epoch {E : Externals} (c : Config) :
  (forall p, TopOptimizerNN_forward p (mid_points_tensor c) <> []) ->
  (forall x e s,
      let d := TopOptimizerNN_forward (st_params s) (mid_points x) in
      let objective :=
        tensor_float
          (np_multiply (np_power d (PrimFloat.mul 2%float (penal c)))
             (project_psi (mesh c)
                (LinearVariationalSolver_solve (mesh c) (penal c) d))) in
      let s' := snd (iteration c x e s) in
      count_kind KSolve (iteration_events c x e s) = 1%nat
      /\ count_kind KOptimizerStep (iteration_events c x e s) = 1%nat
      /\ st_u_sol s' = LinearVariationalSolver_solve (mesh c) (penal c) d
      /\ (st_params s', st_opt s')
         = Adam_step (learning_rate c) (st_params s) (st_opt s)
             (clip_grad_norm
                (TopOptLoss_backward (st_params s) (mid_points x) objective
                   (vol_fraction x) (penal c) (obj_0 x) (st_alpha s)
                   (volumes x))
                (nrm_threshold c)))
  /\ (forall e, In e (Py.range 1 (max_epochs c)) <-> 1 <= e < max_epochs c)
  /\ exists x s1 s2,
       prepared c = (Ok x, s1)
       /\ training_loop c x s1 = (Ok tt, s2)
       /\ map kind (events_since s1 s2)
          = flat_map (fun _ => body_kinds) (Py.range 1 (max_epochs c))
       /\ map row_epoch (st_training_data s2)
          = 0 :: Py.range 1 (max_epochs c)
       /\ count_kind KSolve (events_since s1 s2)
          = Z.to_nat (max_epochs c - 1)
       /\ count_kind KOptimizerStep (events_since s1 s2)
          = Z.to_nat (max_epochs c - 1).
Proof.
  intros Hne. split.
  { intros x e s. cbv zeta.
    split; [apply iteration_counts|]. split; [apply iteration_counts|].
    run_iteration s x; split; try reflexivity;
      symmetry; apply surjective_pairing. }
  split; [intros e; apply range_spec|].
  destruct (prepare_run c)
    as (x & s1 & Hp & _ & Hmid & _ & Hdata & _ & _ & _).
  rewrite <- Hmid in Hne.
  destruct (loop_complete c x Hne (Py.range 1 (max_epochs c)) s1)
    as (evs & s2 & Hrun & Htr & Hkinds & Hrows & _).
  exists x, s1, s2.
  assert (Hev : events_since s1 s2 = evs).
  { unfold events_since. rewrite Htr. apply skipn_length_app. }
  rewrite Hev, Hrows, Hdata, !count_kind_kinds, Hkinds, !count_flat_map_body.
  rewrite range_length. repeat split; try assumption.
  - cbn. lia.
  - cbn. lia.
Qed.

(** ** C5: the reference objective *)

(** C5.  The reference objective [obj_0] is computed before the loop, from
    the single solve made there and the configuration alone; no call of the
    loss precedes the loop, and every call of the loss in the whole run is
    given that one value. *)
Theorem C5_reference_objective_fixed {E : Externals} (c : Config) :
  exists x s1,
    prepared c = (Ok x, s1)
    /\ obj_0 x
       = PrimFloat.mul (float_pow (volume_ratio c) (penal c))
           (np_sum
              (project_psi (mesh c)
                 (LinearVariationalSolver_solve (mesh c) (penal c)
                    (repeat 0.5%float (num_cells (mesh c))))))
    /\ count_kind KSolve (st_trace s1) = 1%nat
    /\ loss_references (st_trace s1) = []
    /\ Forall (fun o => o = obj_0 x)
         (loss_references (st_trace (snd (run c)))).
Proof.
  destruct (prepare_run c)
    as (x & s1 & Hp & Hobj & _ & Htr & _ & _ & _ & _).
  exists x, s1. rewrite Htr. repeat split; try assumption.
  rewrite run_unfold, Hp. unfold training_loop.
  destruct (loop_invariant c x (Py.range 1 (max_epochs c)) s1)
    as (evs & k & Hext & _ & _ & _ & Hloss).
  destruct (for_each _ _ s1) as [[u|ex] s2]; cbn [snd] in Hext |- *.
  - destruct (finish_trace c s2) as (evs' & Hfin & _ & Hnone & _).
    rewrite Hfin, Hext, Htr, !loss_references_app, Hnone, app_nil_r.
    exact Hloss.
  - rewrite Hext, Htr, loss_references_app. exact Hloss.
Qed.

(** ** C7: [min_epochs] is read only for the metadata *)

(** C7.  Two runs that differ only in [min_epochs] end the same way and
    agree on everything but the files written: parameters, optimizer state,
    penalty weight, training record, density frames, console output and the
    sequence of calls are equal; the files agree once the ["Min epochs"]
    entry of the metadata is left out. *)
Theorem C7_min_epochs_dead {E : Externals} (c : Config) (m : Z) :
  fst (run (with_min_epochs m c)) = fst (run c)
  /\ training_view (snd (run (with_min_epochs m c)))
     = training_view (snd (run c))
  /\ map forget_min_epochs (st_files (snd (run (with_min_epochs m c))))
     = map forget_min_epochs (st_files (snd (run c))).
Proof.
  rewrite !run_unfold, prepared_min_epochs.
  destruct (prepared c) as [[x|ex] s1]; [|repeat split].
  rewrite training_loop_min_epochs.
  destruct (training_loop c x s1) as [[u|ex] s2]; [|repeat split].
  unfold_ops. cbn -[data_directory NAME].
  destruct (st_epoch s2); cbn -[data_directory NAME].
  - rewrite !map_app. repeat split.
  - repeat split.
Qed.

(** ** C8: the grey-element fraction *)



(** ** C10: the density of the reference solve *)

(** C10.  The reference solve is made on the uniform density 0.5, whatever
    the configured [volume_ratio]; the reference objective multiplies the
    summed strain energy of that solve by [volume_ratio ** penal]; and in
    the script [volume_ratio] is 0.3, not 0.5. *)
Theorem C10_reference_density_half {E : Externals} (c : Config) :
  exists x s1 rest,
    prepared c = (Ok x, s1)
    /\ st_trace s1
       = EvAssignDensity (repeat 0.5%float (num_cells (mesh c)))
         :: EvSolve (repeat 0.5%float (num_cells (mesh c))) :: rest
    /\ count_kind KSolve rest = O
    /\ obj_0 x
       = PrimFloat.mul (float_pow (volume_ratio c) (penal c))
           (np_sum
              (project_psi (mesh c)
                 (LinearVariationalSolver_solve (mesh c) (penal c)
                    (repeat 0.5%float (num_cells (mesh c))))))
    /\ hd_error (st_training_data s1)
       = Some {| row_epoch := 0; row_objective := obj_0 x;
                 row_density_avg :=
                   np_average (repeat 0.5%float (num_cells (mesh c))) |}
    /\ PrimFloat.eqb (volume_ratio script_config) 0.5%float = false
    /\ PrimFloat.eqb (volume_ratio script_config) 0.3%float = true.
Proof.
  destruct (prepare_run c)
    as (x & s1 & Hp & Hobj & _ & Htr & Hdata & _ & _ & _).
  exists x, s1. eexists. rewrite Htr, Hdata.
  repeat split; try assumption; reflexivity.
Qed.

(** ** C6: the density predictor *)

Section Predictor.

Import TopOptimizerNN.
Local Open Scope R_scope.

Lemma total_exp_nonneg (z : list R) : 0 <= total (map exp z).
Proof.
  unfold total. induction z as [|a z IH]; cbn; [lra|].
  pose proof (exp_pos a). lra.
Qed.

Lemma exp_le_total (z : list R) (a : R) :
  In a z -> exp a <= total (map exp z).
Proof.
  induction z as [|b z IH]; [intros []|].
  change (total (map exp (b :: z))) with (exp b + total (map exp z)).
  intros [->|Hin].
  - pose proof (total_exp_nonneg z). lra.
  - pose proof (exp_pos b). specialize (IH Hin). lra.
Qed.

Lemma softmax_bounds (z : list R) :
  Forall (fun y => 0 <= y <= 1) (softmax z).
Proof.
  unfold softmax. apply Forall_forall. intros y Hy.
  apply in_map_iff in Hy. destruct Hy as (a & <- & Hin).
  pose proof (exp_pos a) as Ha.
  pose proof (exp_le_total z a Hin) as Hle.
  assert (HT : 0 < total (map exp z)) by lra.
  pose proof (Rinv_0_lt_compat _ HT) as Hinv.
  assert (H1 : total (map exp z) * / total (map exp z) = 1)
    by (apply Rinv_r; lra).
  unfold Rdiv. split; nra.
Qed.

(** C6.  Whatever the parameters of the network (so at every epoch) and
    whatever the coordinate, every normalised output, and so the density,
    lies in the interval [0,1]; this follows from the softmax layer alone. *)
Theorem C6_density_in_unit_interval (net : Net) :
  (forall x, Forall (fun y => 0 <= y <= 1) (outputs net x))
  /\ (forall x, 0 <= density net x <= 1)
  /\ (forall xs, Forall (fun y => 0 <= y <= 1) (forward net xs)).
Proof.
  assert (Hout : forall x, Forall (fun y => 0 <= y <= 1) (outputs net x))
    by (intros x; apply softmax_bounds).
  assert (Hden : forall x, 0 <= density net x <= 1).
  { intros x. unfold density. specialize (Hout x).
    destruct (outputs net x) as [|y l]; cbn; [lra|].
    now inversion Hout. }
  split; [exact Hout|]. split; [exact Hden|].
  intros xs. unfold forward. apply Forall_forall. intros y Hy.
  apply in_map_iff in Hy. destruct Hy as (x & <- & _). apply Hden.
Qed.

End Predictor.

(** * Concrete runs on the small instance *)

Section ToyRuns.

#[local] Existing Instance toy.

Lemma C2_zero_epochs_run_witness :
  max_epochs (with_max_epochs 1 script_config) <= 1
  /\ exists s row,
       run (with_max_epochs 1 script_config)
       = (Raise (NameError "epoch"), s)
       /\ st_files s = [CsvFile data_directory [row]]
       /\ row_epoch row = 0
       /\ row_density_avg row
          = np_average
              (repeat 0.5%float
                 (num_cells (mesh (with_max_epochs 1 script_config))))
       /\ count_kind KWriteMeta (st_trace s) = O.
Proof.
  assert (H : max_epochs (with_max_epochs 1 script_config) <= 1)
    by (cbn; lia).
  split; [exact H|].
  exact (C2_zero_epochs_run (with_max_epochs 1 script_config) H).
Defined.

Lemma C3_alpha_schedule_witness :
  volume_ratio toy_config = 0.3%float
  /\ alpha_increment toy_config = 0.05%float
  /\ nondecreasing (alpha_history toy_config)
  /\ Forall (fun a => PrimFloat.leb a (alpha_max toy_config) = true)
       (alpha_history toy_config).
Proof.
  split; [reflexivity|]. split; [reflexivity|].
  pose proof (C3_alpha_schedule toy_config eq_refl eq_refl) as H.
  split; [exact (proj1 (proj2 H)) | exact (proj1 (proj2 (proj2 H)))].
Defined.

Lemma toy_forward_nonempty :
  forall p, TopOptimizerNN_forward p (mid_points_tensor toy_config) <> [].
Proof. intros p. cbn. discriminate. Defined.

Lemma C4_one_solve_one_step_per_epoch_witness :
  (forall p, TopOptimizerNN_forward p (mid_points_tensor toy_config) <> [])
  /\ exists x s1 s2,
       prepared toy_config = (Ok x, s1)
       /\ training_loop toy_config x s1 = (Ok tt, s2)
       /\ map kind (events_since s1 s2)
          = flat_map (fun _ => body_kinds)
              (Py.range 1 (max_epochs toy_config))
       /\ map row_epoch (st_training_data s2)
          = 0 :: Py.range 1 (max_epochs toy_config)
       /\ count_kind KSolve (events_since s1 s2)
          = Z.to_nat (max_epochs toy_config - 1)
       /\ count_kind KOptimizerStep (events_since s1 s2)
          = Z.to_nat (max_epochs toy_config - 1).
Proof.
  split; [exact toy_forward_nonempty|].
  exact (proj2 (proj2 (C4_one_solve_one_step_per_epoch toy_config
                         toy_forward_nonempty))).
Defined.


End ToyRuns.

(** * Further properties of the script *)

(** ** Order on binary64 floats *)

Lemma SFcompare_refl x : x <> S754_nan -> SFcompare x x = Some Eq.
Proof.
  destruct x as [s|s| |s m e]; cbn; try congruence; intros _.
  - now destruct s.
  - rewrite Z.compare_refl.
    change (Pos.compare_cont Eq m m) with (Pos.compare m m).
    rewrite Pos.compare_refl. now destruct s.
Qed.

Lemma SFltb_asym x y : SFltb x y = true -> SFltb y x = false.
Proof.
  unfold SFltb.
  destruct x as [sx|sx| |sx mx ex], y as [sy|sy| |sy my ey]; cbn;
    try discriminate; try reflexivity;
    try (destruct sx; discriminate || reflexivity);
    try (destruct sy; discriminate || reflexivity);
    try (destruct sx, sy; discriminate || reflexivity).
  change (Pos.compare_cont Eq mx my) with (Pos.compare mx my).
  change (Pos.compare_cont Eq my mx) with (Pos.compare my mx).
  rewrite (Z.compare_antisym ex ey), (Pos.compare_antisym mx my).
  destruct sx, sy; try discriminate; try reflexivity;
    destruct (ex ?= ey); cbn; try discriminate; try reflexivity;
    destruct (mx ?= my)%positive; cbn; try discriminate; reflexivity.
Qed.

Lemma SFleb_trans x y z :
  SFleb x y = true -> SFleb y z = true -> SFleb x z = true.
Proof.
  unfold SFleb.
  destruct x as [sx|sx| |sx mx ex], y as [sy|sy| |sy my ey],
           z as [sz|sz| |sz mz ez]; cbn;
    try discriminate; try reflexivity;
    try (destruct sx; discriminate || reflexivity);
    try (destruct sy; discriminate || reflexivity);
    try (destruct sz; discriminate || reflexivity);
    try (destruct sx, sy; discriminate || reflexivity);
    try (destruct sx, sz; discriminate || reflexivity);
    try (destruct sy, sz; discriminate || reflexivity);
    try (destruct sx, sy, sz; discriminate || reflexivity).
  all: change (Pos.compare_cont Eq ?a ?b) with (Pos.compare a b).
  all: destruct sx, sy, sz; try discriminate; try reflexivity.
  all: destruct (Z.compare_spec ex ey), (Z.compare_spec ey ez),
         (Z.compare_spec ex ez); try discriminate; try reflexivity; try lia.
  all: subst.
  all: destruct (Pos.compare_spec mx my), (Pos.compare_spec my mz),
         (Pos.compare_spec mx mz); cbn;
       try discriminate; try reflexivity; try lia.
Qed.

Lemma float_ltb_leb a b :
  PrimFloat.ltb a b = true -> PrimFloat.leb a b = true.
Proof.
  rewrite ltb_spec, leb_spec. unfold SFltb, SFleb.
  destruct (SFcompare _ _) as [[| |]|]; congruence.
Qed.

Lemma float_ltb_asym a b :
  PrimFloat.ltb a b = true -> PrimFloat.ltb b a = false.
Proof. rewrite !ltb_spec. apply SFltb_asym. Qed.

Lemma float_leb_trans a b c :
  PrimFloat.leb a b = true -> PrimFloat.leb b c = true ->
  PrimFloat.leb a c = true.
Proof. rewrite !leb_spec. apply SFleb_trans. Qed.

Lemma float_leb_refl a : PrimFloat.is_nan a = false -> PrimFloat.leb a a = true.
Proof.
  unfold PrimFloat.is_nan. rewrite eqb_spec, leb_spec. unfold SFeqb, SFleb.
  destruct (SFcompare _ _) as [[| |]|]; cbn; congruence.
Qed.

Lemma float_nan_spec a : PrimFloat.is_nan a = true -> Prim2SF a = S754_nan.
Proof.
  unfold PrimFloat.is_nan. rewrite eqb_spec. unfold SFeqb. intros H.
  destruct (Prim2SF a) as [s|s| |s m e] eqn:Ha; [| |reflexivity|];
    rewrite SFcompare_refl in H by discriminate; discriminate.
Qed.

Lemma float_nan_not_less a b :
  PrimFloat.is_nan b = true ->
  PrimFloat.ltb a b = false /\ PrimFloat.ltb b a = false.
Proof.
  intros H. rewrite !ltb_spec, (float_nan_spec b H). unfold SFltb.
  split; [now destruct (Prim2SF a) | reflexivity].
Qed.

(** ** The penalty schedule over a whole run *)

Lemma loss_alphas_app (a b : list Event) :
  loss_alphas (a ++ b) = loss_alphas a ++ loss_alphas b.
Proof.
  induction a as [|ev a IH]; simpl; auto.
  destruct ev; simpl; auto. now rewrite IH.
Qed.

Section ScheduleFacts.

Context {E : Externals}.

Lemma iteration_loss_alphas c x e s :
  loss_alphas (iteration_events c x e s) = [st_alpha s].
Proof. run_iteration s x; reflexivity. Qed.

(** The loop reads [alpha] for the loss before it updates it. *)
Lemma loop_schedule c x es : forall s,
  exists evs k,
    st_trace
      (snd (for_each es
              (fun epoch =>
                 bind (store_epoch epoch) (fun _ => iteration c x epoch)) s))
    = st_trace s ++ evs
    /\ (k <= List.length es)%nat
    /\ anneals evs
       = map (fun i => Nat.iter i (anneal c) (st_alpha s)) (seq 1 k)
    /\ loss_alphas evs
       = map (fun i => Nat.iter i (anneal c) (st_alpha s)) (seq 0 k).
Proof.
  induction es as [|e es IH]; intros s.
  - exists [], O. cbn. rewrite app_nil_r. repeat split; auto.
  - rewrite for_each_cons, body_unfold.
    pose proof (iteration_extends c x e (set_epoch e s)) as Hext.
    pose proof (iteration_anneals c x e (set_epoch e s)) as Han.
    pose proof (iteration_alpha c x e (set_epoch e s)) as Hal.
    pose proof (iteration_loss_alphas c x e (set_epoch e s)) as Hlo.
    cbn [st_trace st_alpha set_epoch] in Hext, Han, Hal, Hlo.
    destruct (iteration c x e (set_epoch e s)) as [[[]|ex] s'] eqn:Hit;
      cbn [snd] in *.
    + destruct (IH s') as (evs & k & Htr & Hk & Hann & Hloss).
      exists (iteration_events c x e (set_epoch e s) ++ evs), (S k).
      rewrite Htr, Hext, <- app_assoc.
      rewrite anneals_app, loss_alphas_app, Han, Hlo, Hann, Hloss, Hal.
      repeat split.
      * cbn [List.length]. lia.
      * cbn [seq map app Nat.iter]. f_equal.
        rewrite <- (seq_shift k 1), map_map.
        apply map_ext. intros i. now rewrite Nat.iter_succ_r.
      * cbn [seq map app Nat.iter]. f_equal.
        rewrite <- (seq_shift k 0), map_map.
        apply map_ext. intros i. now rewrite Nat.iter_succ_r.
    + exists (iteration_events c x e (set_epoch e s)), 1%nat.
      rewrite Hext, Han, Hlo. repeat split.
      cbn [List.length]. lia.
Qed.

Lemma finish_quiet c s :
  exists evs,
    st_trace (snd (finish c s)) = st_trace s ++ evs
    /\ anneals evs = []
    /\ loss_alphas evs = [].
Proof.
  unfold_ops. cbn. destruct (st_epoch s); cbn;
    rewrite <- ?app_assoc; eexists; repeat split; reflexivity.
Qed.

(** After [k] iterations started, the loss has seen the first [k] values of
    the schedule and [alpha] has been assigned the next [k]. *)
Lemma run_schedule c :
  exists k,
    (k <= Z.to_nat (max_epochs c - 1))%nat
    /\ anneals (st_trace (snd (run c))) = map (alpha_after c) (seq 1 k)
    /\ loss_alphas (st_trace (snd (run c))) = map (alpha_after c) (seq 0 k).
Proof.
  rewrite run_unfold.
  destruct (prepare_run c)
    as (x & s1 & Hp & _ & _ & Htr & _ & Hal & _ & _).
  rewrite Hp. unfold training_loop.
  destruct (loop_schedule c x (Py.range 1 (max_epochs c)) s1)
    as (evs & k & Hext & Hk & Hann & Hloss).
  rewrite range_length in Hk. exists k. split; [exact Hk|].
  assert (Hs : forall tr evs',
             tr = st_trace s1 ++ evs ->
             anneals evs' = [] -> loss_alphas evs' = [] ->
             anneals (tr ++ evs') = map (alpha_after c) (seq 1 k)
             /\ loss_alphas (tr ++ evs') = map (alpha_after c) (seq 0 k)).
  { intros tr evs' -> Ha Hl.
    rewrite Htr, !anneals_app, !loss_alphas_app, Hann, Hloss, Ha, Hl, Hal.
    cbn [anneals loss_alphas app]. rewrite !app_nil_r.
    split; apply map_ext; intros i; now rewrite alpha_after_iter. }
  destruct (for_each _ _ s1) as [[u|ex] s2]; cbn [snd] in Hext.
  - destruct (finish_quiet c s2) as (evs' & Hfin & Ha & Hl).
    rewrite Hfin. now apply Hs.
  - cbn [snd]. rewrite <- (app_nil_r (st_trace s2)). now apply Hs.
Qed.

End ScheduleFacts.

Lemma anneal_capped c a :
  PrimFloat.is_nan (alpha_max c) = false ->
  PrimFloat.leb (anneal c a) (alpha_max c) = true.
Proof.
  intros Hnan. unfold anneal, Py.min.
  destruct (PrimFloat.ltb _ _) eqn:Hlt.
  - now apply float_ltb_leb.
  - now apply float_leb_refl.
Qed.

Lemma SFltb_not_leb x y : SFltb x y = true -> SFleb y x = false.
Proof.
  unfold SFltb, SFleb.
  destruct x as [sx|sx| |sx mx ex], y as [sy|sy| |sy my ey]; cbn;
    try discriminate; try reflexivity;
    try (destruct sx; discriminate || reflexivity);
    try (destruct sy; discriminate || reflexivity);
    try (destruct sx, sy; discriminate || reflexivity).
  change (Pos.compare_cont Eq mx my) with (Pos.compare mx my).
  change (Pos.compare_cont Eq my mx) with (Pos.compare my mx).
  rewrite (Z.compare_antisym ex ey), (Pos.compare_antisym mx my).
  destruct sx, sy; try discriminate; try reflexivity;
    destruct (ex ?= ey); cbn; try discriminate; try reflexivity;
    destruct (mx ?= my)%positive; cbn; try discriminate; reflexivity.
Qed.

Lemma float_ltb_not_leb a b :
  PrimFloat.ltb a b = true -> PrimFloat.leb b a = false.
Proof. rewrite ltb_spec, leb_spec. apply SFltb_not_leb. Qed.

(** X5.  Whatever the configured volume ratio and increment, as long as
    [alpha_max] is a number, every value the loop assigns to [alpha] is at
    most [alpha_max], even when the value before the update was above the
    cap or not a number. *)
Theorem X5_alpha_cap_any_config {E : Externals} (c : Config) :
  PrimFloat.is_nan (alpha_max c) = false ->
  (forall a, PrimFloat.leb (anneal c a) (alpha_max c) = true)
  /\ Forall (fun a => PrimFloat.leb a (alpha_max c) = true)
       (anneals (st_trace (snd (run c)))).
Proof.
  intros Hnan. split; [intros a; now apply anneal_capped|].
  destruct (run_schedule c) as (k & _ & Hann & _). rewrite Hann.
  apply Forall_forall. intros a Ha. apply in_map_iff in Ha.
  destruct Ha as (n & <- & Hn). apply in_seq in Hn.
  destruct n as [|n]; [lia|]. cbn [alpha_after]. now apply anneal_capped.
Qed.

(** X6.  When the configured increment is above [alpha_max] (a volume ratio
    below 0.0005), [alpha] starts above its cap and the first update lowers
    it to [alpha_max]: the schedule is not monotone for such a
    configuration. *)
Theorem X6_first_update_can_lower_alpha (c : Config) :
  PrimFloat.ltb (alpha_max c) (alpha_increment c) = true ->
  PrimFloat.ltb (alpha_max c)
    (PrimFloat.add (alpha_increment c) (alpha_increment c)) = true ->
  PrimFloat.leb (alpha_after c 0) (alpha_max c) = false
  /\ alpha_after c 1 = alpha_max c
  /\ PrimFloat.ltb (alpha_after c 1) (alpha_after c 0) = true
  /\ PrimFloat.leb (alpha_after c 0) (alpha_after c 1) = false.
Proof.
  intros Hinc Hsum. cbn [alpha_after].
  assert (H1 : anneal c (alpha_increment c) = alpha_max c).
  { unfold anneal, Py.min. now rewrite (float_ltb_asym _ _ Hsum). }
  rewrite H1. repeat split; auto using float_ltb_not_leb.
Qed.

Lemma schedule_below_cap :
  forallb
    (fun n => PrimFloat.ltb (alpha_after script_config n)
                (alpha_max script_config))
    (seq 0 599) = true.
Proof. vm_compute. reflexivity. Qed.

(** X7.  With the script's constants the cap is first reached at the 599th
    update: in any run of at most 599 epochs (the script runs 500) every
    value of [alpha] is strictly below [alpha_max], and from the 599th
    update on [alpha] equals [alpha_max]. *)
Theorem X7_cap_first_reached_at_599 {E : Externals} (c : Config) :
  volume_ratio c = 0.3%float ->
  alpha_increment c = 0.05%float ->
  (max_epochs c <= 599 ->
   Forall (fun a => PrimFloat.ltb a (alpha_max c) = true) (alpha_history c))
  /\ (forall n, (599 <= n)%nat -> alpha_after c n = alpha_max c).
Proof.
  intros Hv Hi.
  assert (Hmax : alpha_max c = alpha_max script_config)
    by (unfold alpha_max; now rewrite Hv).
  split.
  - intros Hle. unfold alpha_history.
    destruct (run_schedule c) as (k & Hk & Hann & _). rewrite Hann.
    change (st_alpha (initial_state c)) with (alpha_after c 0).
    change (alpha_after c 0 :: map (alpha_after c) (seq 1 k))
      with (map (alpha_after c) (seq 0 (S k))).
    apply Forall_forall. intros a Ha. apply in_map_iff in Ha.
    destruct Ha as (n & <- & Hn). apply in_seq in Hn.
    rewrite (alpha_after_script c n Hv Hi), Hmax.
    pose proof schedule_below_cap as Hall.
    rewrite forallb_forall in Hall. apply Hall. apply in_seq. lia.
  - intros n Hn. rewrite (alpha_after_script c n Hv Hi), Hmax.
    now apply schedule_capped.
Qed.

(** X8.  Each iteration evaluates the loss with the value of [alpha] from
    before that iteration's update: over a run of [k] iterations the loss
    sees the schedule values 0 .. k-1 (the first is [alpha_increment]),
    while the updates assign the values 1 .. k; the value assigned by the
    last update is never used by a loss. *)
Theorem X8_loss_sees_alpha_before_update {E : Externals} (c : Config) :
  exists k,
    (k <= Z.to_nat (max_epochs c - 1))%nat
    /\ loss_alphas (st_trace (snd (run c)))
       = map (alpha_after c) (seq 0 k)
    /\ anneals (st_trace (snd (run c)))
       = map (alpha_after c) (seq 1 k).
Proof.
  destruct (run_schedule c) as (k & Hk & Hann & Hloss).
  exists k. auto.
Qed.

(** ** Records, frames and files over a whole run *)

Lemma range_prefix lo hi hi' :
  hi <= hi' -> exists tail, Py.range lo hi' = Py.range lo hi ++ tail.
Proof.
  intros Hle. unfold Py.range.
  set (n := Z.to_nat (hi - lo)). set (n' := Z.to_nat (hi' - lo)).
  assert (Hn : (n' = n + (n' - n))%nat) by lia.
  rewrite Hn, seq_app, map_app. eexists. reflexivity.
Qed.

Lemma range_last lo hi (d : option Z) :
  lo < hi -> last (map Some (Py.range lo hi)) d = Some (hi - 1).
Proof.
  intros Hlt. unfold Py.range.
  replace (Z.to_nat (hi - lo)) with (S (Z.to_nat (hi - 1 - lo))) by lia.
  rewrite seq_S, !map_app. cbn [map]. rewrite last_last. f_equal. lia.
Qed.

Section RecordFacts.

Context {E : Externals}.

Lemma for_each_app {A} (f : A -> M unit) (xs ys : list A) : forall s,
  for_each (xs ++ ys) f s
  = match for_each xs f s with
    | (Ok _, s') => for_each ys f s'
    | (Raise ex, s') => (Raise ex, s')
    end.
Proof.
  induction xs as [|a xs IH]; intros s; [reflexivity|].
  cbn [app for_each]. unfold bind.
  destruct (f a s) as [[u|ex] s']; [apply IH | reflexivity].
Qed.

(** An iteration appends a frame and a row for the same epoch, or neither. *)
Lemma iteration_frames_rows c x e s :
  exists frames rows,
    st_xdmf (snd (iteration c x e s)) = st_xdmf s ++ frames
    /\ st_training_data (snd (iteration c x e s))
       = st_training_data s ++ rows
    /\ map fst frames = map row_epoch rows.
Proof.
  run_iteration s x.
  - exists [], []. now rewrite !app_nil_r.
  - eexists [_], [_]. repeat split.
Qed.

Lemma loop_frames_rows c x es : forall s,
  exists frames rows,
    st_xdmf
      (snd (for_each es
              (fun epoch =>
                 bind (store_epoch epoch) (fun _ => iteration c x epoch)) s))
    = st_xdmf s ++ frames
    /\ st_training_data
         (snd (for_each es
                 (fun epoch =>
                    bind (store_epoch epoch) (fun _ => iteration c x epoch))
                 s))
       = st_training_data s ++ rows
    /\ map fst frames = map row_epoch rows.
Proof.
  induction es as [|e es IH]; intros s.
  - exists [], []. cbn. now rewrite !app_nil_r.
  - rewrite for_each_cons, body_unfold.
    destruct (iteration_frames_rows c x e (set_epoch e s))
      as (f1 & r1 & Hf1 & Hr1 & H1).
    cbn [st_xdmf st_training_data set_epoch] in Hf1, Hr1.
    destruct (iteration c x e (set_epoch e s)) as [[u|ex] s'];
      cbn [snd] in *.
    + destruct (IH s') as (f2 & r2 & Hf2 & Hr2 & H2).
      exists (f1 ++ f2), (r1 ++ r2).
      rewrite Hf2, Hr2, Hf1, Hr1, <- !app_assoc, !map_app, H1, H2.
      repeat split.
    + exists f1, r1. auto.
Qed.

(** The loop writes no file. *)
Lemma iteration_files c x e s :
  st_files (snd (iteration c x e s)) = st_files s.
Proof. run_iteration s x; reflexivity. Qed.

Lemma loop_files c x es : forall s,
  st_files
    (snd (for_each es
            (fun epoch =>
               bind (store_epoch epoch) (fun _ => iteration c x epoch)) s))
  = st_files s.
Proof.
  induction es as [|e es IH]; intros s; [reflexivity|].
  rewrite for_each_cons, body_unfold.
  pose proof (iteration_files c x e (set_epoch e s)) as Hf.
  cbn [st_files set_epoch] in Hf.
  destruct (iteration c x e (set_epoch e s)) as [[u|ex] s'];
    cbn [snd] in *; [now rewrite IH | exact Hf].
Qed.

Lemma finish_keeps c s :
  st_xdmf (snd (finish c s)) = st_xdmf s
  /\ st_training_data (snd (finish c s)) = st_training_data s.
Proof. unfold_ops. cbn. destruct (st_epoch s); split; reflexivity. Qed.

Lemma prepared_frames_rows c :
  map fst (st_xdmf (snd (prepared c)))
  = map row_epoch (st_training_data (snd (prepared c))).
Proof. unfold prepared, initial_state. unfold_ops. reflexivity. Qed.

Lemma prepared_max_epochs c m : prepared (with_max_epochs m c) = prepared c.
Proof.
  unfold prepared, initial_state, mid_points_tensor, mesh. unfold_ops.
  cbn. reflexivity.
Qed.

Lemma iteration_max_epochs c m x e :
  iteration (with_max_epochs m c) x e = iteration c x e.
Proof.
  unfold iteration, solver_solve, update_alpha, optimizer_step, anneal,
    alpha_max, mesh.
  cbn [with_max_epochs nelx nely volume_ratio penal learning_rate
       numbers_of_layers nrm_threshold max_epochs dim alpha_increment].
  reflexivity.
Qed.

Lemma training_loop_max_epochs c m x s :
  training_loop (with_max_epochs m c) x s
  = for_each (Py.range 1 m)
      (fun epoch => bind (store_epoch epoch) (fun _ => iteration c x epoch))
      s.
Proof.
  unfold training_loop. cbn [with_max_epochs max_epochs].
  apply for_each_ext. intros a s0. now rewrite iteration_max_epochs.
Qed.

End RecordFacts.

(** X1.  A run of at least two epochs whose predictions are never empty ends
    normally.  Its density file holds [max_epochs] frames, for the epochs
    0, 1, ..., [max_epochs - 1]; after the loop it writes the CSV and then
    the metadata file and no other: the CSV has [max_epochs] rows, for the
    same epochs in the same order, and the metadata records ["Epochs"] as
    [max_epochs - 1], one less than its ["Max epochs"] entry. *)
Theorem X1_complete_run_files {E : Externals} (c : Config) :
  (forall p, TopOptimizerNN_forward p (mid_points_tensor c) <> []) ->
  2 <= max_epochs c ->
  exists s rows data,
    run c = (Ok tt, s)
    /\ map fst (st_xdmf s) = 0 :: Py.range 1 (max_epochs c)
    /\ st_files s
       = [CsvFile data_directory rows; MetaFile NAME data_directory data]
    /\ map row_epoch rows = 0 :: Py.range 1 (max_epochs c)
    /\ Z.of_nat (List.length rows) = max_epochs c
    /\ In ("Epochs"%string, MInt (max_epochs c - 1)) data
    /\ In ("Max epochs"%string, MInt (max_epochs c)) data.
Proof.
  intros Hne Hmax. rewrite run_unfold.
  pose proof (prepared_frames_rows c) as Hpf.
  destruct (prepare_run c)
    as (x & s1 & Hp & _ & Hmid & _ & Hdata & _ & Hep & Hfiles).
  rewrite Hp in *. cbn [snd] in Hpf.
  rewrite <- Hmid in Hne. unfold training_loop.
  destruct (loop_frames_rows c x (Py.range 1 (max_epochs c)) s1)
    as (frames & rws & Hf2 & Hr2 & Hfr).
  pose proof (loop_files c x (Py.range 1 (max_epochs c)) s1) as Hl.
  destruct (loop_complete c x Hne (Py.range 1 (max_epochs c)) s1)
    as (evs & s2 & Hrun & _ & _ & Hrows & Hepoch).
  rewrite Hrun in *. cbn [snd] in Hf2, Hr2, Hl.
  rewrite range_last in Hepoch by lia.
  destruct (finish_keeps c s2) as (Hkf & _).
  destruct (finish_bound c s2 _ Hepoch)
    as (s' & data & Hfin & Hf & HinE & HinM & _).
  rewrite Hfin in *. cbn [snd] in Hkf.
  exists s', (st_training_data s2), data.
  rewrite Hf, Hl, Hfiles, Hkf, Hf2, map_app, Hpf, Hfr, <- map_app, <- Hr2.
  rewrite Hrows, Hdata. cbn [app map row_epoch].
  repeat split; auto.
  rewrite <- (length_map row_epoch), Hrows, Hdata.
  cbn [map row_epoch app List.length]. rewrite range_length. lia.
Qed.

(** X2.  In every run, however it ends, the density file and the training
    record stay aligned: the epochs of the frames written with
    [xdmf.write] are, in order, the epochs of the rows of [training_data]. *)
Theorem X2_frames_match_records {E : Externals} (c : Config) :
  map fst (st_xdmf (snd (run c)))
  = map row_epoch (st_training_data (snd (run c))).
Proof.
  rewrite run_unfold. pose proof (prepared_frames_rows c) as Hp.
  destruct (prepared c) as [[x|ex] s1]; cbn [snd] in Hp; [|exact Hp].
  unfold training_loop.
  destruct (loop_frames_rows c x (Py.range 1 (max_epochs c)) s1)
    as (frames & rows & Hf & Hr & Hfr).
  destruct (for_each _ _ s1) as [[u|ex] s2]; cbn [snd] in *.
  - destruct (finish_keeps c s2) as (Hkf & Hkr).
    now rewrite Hkf, Hkr, Hf, Hr, !map_app, Hp, Hfr.
  - now rewrite Hf, Hr, !map_app, Hp, Hfr.
Qed.

(** X3.  What an iteration saves for its epoch describes the parameters it
    started with: the frame and the density function hold the prediction
    [d] made before the optimizer step, the row holds the objective
    [sum(float32(d ** (2 * penal) * psi))] of the solve on [d] and the
    average of [d], and the network is evaluated once only, so the density
    of the updated parameters is neither computed nor saved in that
    iteration. *)
Theorem X3_saved_density_precedes_update {E : Externals} (c : Config)
    (x : Context_) (e : Z) (s : State) :
  let d := TopOptimizerNN_forward (st_params s) (mid_points x) in
  let objective :=
    tensor_float
      (np_multiply (np_power d (PrimFloat.mul 2%float (penal c)))
         (project_psi (mesh c)
            (LinearVariationalSolver_solve (mesh c) (penal c) d))) in
  let s' := snd (iteration c x e s) in
  d <> [] ->
  st_xdmf s' = st_xdmf s ++ [(e, d)]
  /\ st_density s' = d
  /\ st_training_data s'
     = st_training_data s
       ++ [{| row_epoch := e; row_objective := torch_sum objective;
              row_density_avg := np_average d |}]
  /\ st_params s'
     = fst (Adam_step (learning_rate c) (st_params s) (st_opt s)
              (clip_grad_norm
                 (TopOptLoss_backward (st_params s) (mid_points x) objective
                    (vol_fraction x) (penal c) (obj_0 x) (st_alpha s)
                    (volumes x))
                 (nrm_threshold c)))
  /\ count_kind KForward (iteration_events c x e s) = 1%nat
  /\ occurs_before KForward KOptimizerStep (iteration_events c x e s) = true.
Proof.
  intros d objective s' Hne. subst s' objective d.
  revert Hne. run_iteration s x; [congruence|].
  intros _. repeat split.
Qed.

(** X4.  Gradients left over from earlier do not reach the optimizer: an
    iteration started with any stored gradients behaves exactly as one
    started with none, because the gradients are cleared first. *)
Theorem X4_stale_gradients_ignored {E : Externals} (c : Config)
    (x : Context_) (e : Z) (s : State) (g : option Grads) :
  iteration c x e (set_grads g s) = iteration c x e s.
Proof.
  unfold_ops. cbn.
  destruct (rel_grey_elements _); reflexivity.
Qed.

(** X9.  Training for longer only extends what a shorter run records: with
    the same collaborators, the training record and the density frames of a
    run with [max_epochs = m] are prefixes of those of a run with
    [max_epochs = m'] whenever [m <= m']. *)
Theorem X9_longer_run_extends_record {E : Externals} (c : Config)
    (m m' : Z) :
  m <= m' ->
  exists rows frames,
    st_training_data (snd (run (with_max_epochs m' c)))
    = st_training_data (snd (run (with_max_epochs m c))) ++ rows
    /\ st_xdmf (snd (run (with_max_epochs m' c)))
       = st_xdmf (snd (run (with_max_epochs m c))) ++ frames.
Proof.
  intros Hle. rewrite !run_unfold, !prepared_max_epochs.
  destruct (prepared c) as [[x|ex] s1];
    [|exists [], []; now rewrite !app_nil_r].
  rewrite !training_loop_max_epochs.
  destruct (range_prefix 1 m m' Hle) as (tail & ->).
  rewrite for_each_app.
  destruct (for_each (Py.range 1 m) _ s1) as [[u|ex] s2];
    [|exists [], []; now rewrite !app_nil_r].
  destruct (finish_keeps (with_max_epochs m c) s2) as (Hf & Hr).
  rewrite Hf, Hr.
  destruct (loop_frames_rows c x tail s2) as (frames & rows & Hf2 & Hr2 & _).
  destruct (for_each tail _ s2) as [[u'|ex] s3]; cbn [snd] in *.
  - destruct (finish_keeps (with_max_epochs m' c) s3) as (Hf3 & Hr3).
    exists rows, frames. now rewrite Hf3, Hr3.
  - exists rows, frames. auto.
Qed.

(** ** Grey elements *)

Lemma filter_filter_implied {A} (p q : A -> bool) (l : list A) :
  (forall a, p a = true -> q a = true) ->
  filter p (filter q l) = filter p l.
Proof.
  intros Hpq. induction l as [|a l IH]; [reflexivity|].
  cbn [filter]. destruct (q a) eqn:Hq; cbn [filter].
  - now rewrite IH.
  - destruct (p a) eqn:Hp; [|exact IH].
    apply Hpq in Hp. congruence.
Qed.

Lemma is_grey_not_nan {E : Externals} rho :
  is_grey rho = true -> negb (PrimFloat.is_nan rho) = true.
Proof.
  unfold is_grey. intros H. apply andb_true_iff in H. destruct H as [H _].
  destruct (PrimFloat.is_nan rho) eqn:Hn; [|reflexivity].
  destruct (float_nan_not_less (grey_limit 0.05%float) rho Hn) as [H0 _].
  congruence.
Qed.

(** X10.  The grey count lies between 0 and the number of cells, and
    entries that are not a number are never counted as grey (they still
    count in the denominator of the fraction).  At the limits the count
    depends on the NumPy promotion rules: the float32 numbers nearest to
    0.05 and to 0.95 are counted as grey where the comparison is made in
    float64, and are not where it is made in float32. *)
Theorem X10_grey_count_bounds {E : Externals} (d : list float) :
  0 <= grey_elements d <= Z.of_nat (List.length d)
  /\ grey_elements d
     = grey_elements (filter (fun rho => negb (PrimFloat.is_nan rho)) d)
  /\ is_grey (float32_of 0.05%float) = negb numpy_nep50
  /\ is_grey (float32_of 0.95%float) = negb numpy_nep50.
Proof.
  rewrite !grey_elements_count. repeat split.
  - lia.
  - apply inj_le. apply filter_length_le.
  - now rewrite (filter_filter_implied _ _ d is_grey_not_nan).
  - unfold is_grey, grey_limit. destruct numpy_nep50; vm_compute; reflexivity.
  - unfold is_grey, grey_limit. destruct numpy_nep50; vm_compute; reflexivity.
Qed.

(** ** Supports and load *)

Lemma float_leb_clash a b x :
  PrimFloat.leb a b = false ->
  PrimFloat.leb a x = true -> PrimFloat.leb x b = true -> False.
Proof.
  intros Hab Hax Hxb. rewrite (float_leb_trans a x b Hax Hxb) in Hab.
  discriminate.
Qed.

(** X11.  On the script's mesh ([nelx = 180]) the supports and the load are
    on the bottom edge [x[1] == 0]; the load acts only where
    [89 <= x[0] <= 91], at mid-span, and no point is both supported and
    loaded. *)
Theorem X11_load_off_supports (c : Config) (x0 x1 : float) :
  nelx c = 180 ->
  (support c x0 x1 = true ->
   PrimFloat.eqb x1 0%float = true /\ load_region c x0 x1 = false)
  /\ (load_region c x0 x1 = true ->
      PrimFloat.eqb x1 0%float = true
      /\ PrimFloat.leb 89%float x0 = true
      /\ PrimFloat.leb x0 91%float = true
      /\ support c x0 x1 = false).
Proof.
  intros Hn. unfold support, load_region. rewrite Hn. cbv zeta.
  change (PrimFloat.sub (Py.float_of_Z 180) 2%float) with 178%float.
  change (PrimFloat.sub
            (PrimFloat.div (Py.float_of_Z 180) (Py.float_of_Z 2)) 1%float)
    with 89%float.
  change (PrimFloat.add
            (PrimFloat.div (Py.float_of_Z 180) (Py.float_of_Z 2)) 1%float)
    with 91%float.
  assert (H1 : PrimFloat.leb 89%float 2%float = false) by reflexivity.
  assert (H2 : PrimFloat.leb 178%float 91%float = false) by reflexivity.
  destruct (PrimFloat.leb x0 2%float) eqn:A,
           (PrimFloat.leb 178%float x0) eqn:B,
           (PrimFloat.leb 89%float x0) eqn:C,
           (PrimFloat.leb x0 91%float) eqn:D,
           (PrimFloat.eqb x1 0%float) eqn:F; cbn;
    split; intros H; try discriminate H; repeat split; try reflexivity;
    exfalso;
    solve [ exact (float_leb_clash 89%float 2%float x0 H1 C A)
          | exact (float_leb_clash 178%float 91%float x0 H2 B D) ].
Qed.

(** ** Console output *)

Section ConsoleFacts.

Context {E : Externals}.

Lemma loop_console c x
    (Hne : forall p, TopOptimizerNN_forward p (mid_points x) <> []) es :
  forall s,
    map line_epoch
      (st_console
         (snd (for_each es
                 (fun epoch =>
                    bind (store_epoch epoch) (fun _ => iteration c x epoch))
                 s)))
    = map line_epoch (st_console s) ++ map Some es.
Proof.
  induction es as [|e es IH]; intros s.
  - cbn. now rewrite app_nil_r.
  - rewrite for_each_cons, body_unfold.
    pose proof (iteration_fst_nonempty c x e (set_epoch e s) (Hne _)) as Hok.
    destruct (iteration_console c x e (set_epoch e s) (Hne _))
      as (o & a & l & Hc).
    cbn [st_console set_epoch] in Hc.
    destruct (iteration c x e (set_epoch e s)) as [r s'].
    cbn [fst snd] in *. subst r.
    rewrite IH, Hc, map_app, <- app_assoc. reflexivity.
Qed.

Lemma finish_console c s :
  exists elapsed,
    st_console (snd (finish c s)) = st_console s ++ [TimeCost elapsed].
Proof.
  unfold_ops. cbn. destruct (st_epoch s); eexists; reflexivity.
Qed.

Lemma prepared_console c : st_console (snd (prepared c)) = [].
Proof. unfold prepared, initial_state. unfold_ops. reflexivity. Qed.

End ConsoleFacts.

(** X12.  When the predictions are never empty, the console shows one
    progress line for each epoch 1, ..., [max_epochs - 1], in order, each
    right after its epoch (the logging interval is 1), and the elapsed-time
    line comes last; nothing is printed for epoch 0. *)
Theorem X12_console_lines {E : Externals} (c : Config) :
  (forall p, TopOptimizerNN_forward p (mid_points_tensor c) <> []) ->
  map line_epoch (st_console (snd (run c)))
  = map Some (Py.range 1 (max_epochs c)) ++ [None].
Proof.
  intros Hne. rewrite run_unfold.
  pose proof (prepared_console c) as Hcon.
  destruct (prepare_run c)
    as (x & s1 & Hp & _ & Hmid & _ & _ & _ & _ & _).
  rewrite Hp in *. cbn [snd] in Hcon. rewrite <- Hmid in Hne.
  unfold training_loop.
  pose proof (loop_console c x Hne (Py.range 1 (max_epochs c)) s1) as Hl.
  destruct (loop_complete c x Hne (Py.range 1 (max_epochs c)) s1)
    as (evs & s2 & Hrun & _).
  rewrite Hrun in *. cbn [snd] in Hl.
  destruct (finish_console c s2) as (el & Hf).
  rewrite Hf, map_app, Hl, Hcon. reflexivity.
Qed.

(** * Concrete runs for the further properties *)

Section ToyRunsFurther.

#[local] Existing Instance toy.

Lemma X1_complete_run_files_witness :
  (forall p, TopOptimizerNN_forward p (mid_points_tensor toy_config) <> [])
  /\ 2 <= max_epochs toy_config
  /\ exists s rows data,
       run toy_config = (Ok tt, s)
       /\ map fst (st_xdmf s) = 0 :: Py.range 1 (max_epochs toy_config)
       /\ st_files s
          = [CsvFile data_directory rows; MetaFile NAME data_directory data]
       /\ map row_epoch rows = 0 :: Py.range 1 (max_epochs toy_config)
       /\ Z.of_nat (List.length rows) = max_epochs toy_config
       /\ In ("Epochs"%string, MInt (max_epochs toy_config - 1)) data
       /\ In ("Max epochs"%string, MInt (max_epochs toy_config)) data.
Proof.
  assert (H : 2 <= max_epochs toy_config) by (cbn; lia).
  split; [exact toy_forward_nonempty|]. split; [exact H|].
  exact (X1_complete_run_files toy_config toy_forward_nonempty H).
Defined.

Lemma X3_saved_density_precedes_update_witness :
  TopOptimizerNN_forward (st_params (initial_state toy_config))
    (mid_points toy_context) <> []
  /\ st_density
       (snd (iteration toy_config toy_context 1 (initial_state toy_config)))
     = TopOptimizerNN_forward (st_params (initial_state toy_config))
         (mid_points toy_context).
Proof.
  assert (H : TopOptimizerNN_forward (st_params (initial_state toy_config))
                (mid_points toy_context) <> [])
    by (cbn; discriminate).
  split; [exact H|].
  exact (proj1 (proj2 (X3_saved_density_precedes_update toy_config
                         toy_context 1 (initial_state toy_config) H))).
Defined.

Lemma X5_alpha_cap_any_config_witness :
  PrimFloat.is_nan (alpha_max toy_config) = false
  /\ Forall (fun a => PrimFloat.leb a (alpha_max toy_config) = true)
       (anneals (st_trace (snd (run toy_config)))).
Proof.
  assert (H : PrimFloat.is_nan (alpha_max toy_config) = false)
    by reflexivity.
  split; [exact H|].
  exact (proj2 (X5_alpha_cap_any_config toy_config H)).
Defined.

Lemma X6_first_update_can_lower_alpha_witness :
  let c := with_volume_ratio 0.0003%float script_config in
  PrimFloat.ltb (alpha_max c) (alpha_increment c) = true
  /\ PrimFloat.ltb (alpha_max c)
       (PrimFloat.add (alpha_increment c) (alpha_increment c)) = true
  /\ PrimFloat.ltb (alpha_after c 1) (alpha_after c 0) = true.
Proof.
  intros c.
  assert (H1 : PrimFloat.ltb (alpha_max c) (alpha_increment c) = true)
    by reflexivity.
  assert (H2 : PrimFloat.ltb (alpha_max c)
                 (PrimFloat.add (alpha_increment c) (alpha_increment c))
               = true) by reflexivity.
  split; [exact H1|]. split; [exact H2|].
  exact (proj1 (proj2 (proj2 (X6_first_update_can_lower_alpha c H1 H2)))).
Defined.

Lemma X7_cap_first_reached_at_599_witness :
  volume_ratio script_config = 0.3%float
  /\ alpha_increment script_config = 0.05%float
  /\ max_epochs script_config <= 599
  /\ Forall (fun a => PrimFloat.ltb a (alpha_max script_config) = true)
       (alpha_history script_config).
Proof.
  assert (H : max_epochs script_config <= 599) by (cbn; lia).
  split; [reflexivity|]. split; [reflexivity|]. split; [exact H|].
  exact (proj1 (X7_cap_first_reached_at_599 script_config eq_refl eq_refl)
           H).
Defined.

Lemma X9_longer_run_extends_record_witness :
  2 <= 3
  /\ exists rows frames,
       st_training_data (snd (run (with_max_epochs 3 script_config)))
       = st_training_data (snd (run (with_max_epochs 2 script_config)))
         ++ rows
       /\ st_xdmf (snd (run (with_max_epochs 3 script_config)))
          = st_xdmf (snd (run (with_max_epochs 2 script_config))) ++ frames.
Proof.
  assert (H : 2 <= 3) by lia.
  split; [exact H|].
  exact (X9_longer_run_extends_record script_config 2 3 H).
Defined.

Lemma X11_load_off_supports_witness :
  nelx script_config = 180
  /\ support script_config 0%float 0%float = true
  /\ load_region script_config 0%float 0%float = false.
Proof.
  assert (H : nelx script_config = 180) by reflexivity.
  assert (Hs : support script_config 0%float 0%float = true)
    by reflexivity.
  split; [exact H|]. split; [exact Hs|].
  exact (proj2 (proj1 (X11_load_off_supports script_config 0%float 0%float
                         H) Hs)).
Defined.

Lemma X12_console_lines_witness :
  (forall p, TopOptimizerNN_forward p (mid_points_tensor toy_config) <> [])
  /\ map line_epoch (st_console (snd (run toy_config)))
     = map Some (Py.range 1 (max_epochs toy_config)) ++ [None].
Proof.
  split; [exact toy_forward_nonempty|].
  exact (X12_console_lines toy_config toy_forward_nonempty).
Defined.

End ToyRunsFurther.
